(** * lclstreamer: the HDF5 binary serializer

    A shallow embedding of
    [src/lclstreamer/frontend/data_serializers/file_formats.py]
    (class [Hdf5BinarySerializer]) and the properties of its constructor
    and of its per-batch serialization loop.

    Python dictionaries keep insertion order, so they are association
    lists here; Python sets are [gset]s; the keyword dictionary handed to
    [h5py] is a [gmap].  Exceptions are values of type [Exception] carried
    by the [result] monad. *)

From stdpp Require Import gmap strings list.
From Stdlib Require Import ZArith.
From Stdlib.Strings Require Import Byte.

(** ** Python dictionaries *)

Module Dict.

(** [dict[str, V]]: insertion ordered.  A Python dictionary never holds
    a key twice; nothing below depends on it. *)
Abbreviation t V := (list (string * V)).

Definition keys {V} (d : t V) : list string := d.*1.

(** [d.get(k)]: the value stored under [k], if any. *)
Fixpoint get {V} (d : t V) (k : string) : option V :=
  match d with
  | [] => None
  | (k', v) :: d' => if decide (k' = k) then Some v else get d' k
  end.

(** [k in d] *)
Definition contains {V} (d : t V) (k : string) : bool :=
  bool_decide (k ∈ keys d).

(** [del d[k]], used to compare a batch with and without a field. *)
Definition remove {V} (k : string) (d : t V) : t V :=
  filter (λ kv, kv.1 ≠ k) d.

End Dict.

(** ** numpy arrays *)

(** Element types of [StrFloatIntNDArray]. *)
Inductive DType :=
  | dt_str (chars : nat)
  | dt_float (bits : nat)
  | dt_int (bits : nat).

Definition itemsize (t : DType) : nat :=
  match t with
  | dt_str chars => 4 * chars
  | dt_float bits => bits / 8
  | dt_int bits => bits / 8
  end.

(** An array is its shape, its element type and its memory buffer.  The
    shape may be empty (a zero-dimensional array). *)
Record NDArray := {
  shape : list nat;
  dtype : DType;
  buffer : list byte
}.

(** [numpy.zeros(shape, dtype)] *)
Definition zeros (sh : list nat) (t : DType) : NDArray :=
  {| shape := sh; dtype := t;
     buffer := replicate (foldr Nat.mul 1 sh * itemsize t) "000"%byte |}.

(** A batch: every field holds an array or [None]. *)
Abbreviation Batch := (Dict.t (option NDArray)).

(** ** h5py *)

(** Filter objects of [hdf5plugin], by the options they hold: a
    bitshuffle object holds the name of its codec and, for some codecs,
    a level. *)
Inductive Hdf5Filter :=
  | BitshuffleObject (cname : string) (clevel : option Z)
  | Zfp.

(** Values found in the keyword dictionary [_compression_options]. *)
Inductive KwValue :=
  | kw_str (s : string)
  | kw_int (n : Z)
  | kw_bool (b : bool)
  | kw_filter (f : Hdf5Filter).

(** The arguments of one [create_dataset] call, which are also what the
    file then holds for that dataset. *)
Record Dataset := {
  ds_name : string;
  ds_shape : list nat;
  ds_dtype : DType;
  ds_chunks : list nat;
  ds_data : list byte;
  ds_kwargs : gmap string KwValue
}.

(** An open [h5py.File]: its datasets, in creation order. *)
Abbreviation H5File := (list Dataset).

(** The bytes returned by [byte_block.getvalue()] are the image of the
    closed file; a blob is identified with the contents of that file. *)
Abbreviation Blob := (list Dataset).

(** ** Exceptions *)

(** What [log.error] was called with before [sys.exit]. *)
Inductive LogRecord :=
  | NoConfigurationParameters
  | DifferentDepths
  | EntriesNotAvailable (mismatching_entries : gset string).

Inductive Exception :=
  | SystemExit (code : Z) (logged : LogRecord)
  | IndexError
  | KeyError (key : string)
  | ValueError
  | H5Error.

(** The error kinds of the specification, as the code signals them. *)
Definition ConfigurationError : Exception :=
  SystemExit 1 NoConfigurationParameters.
Definition InconsistentDepth : Exception :=
  SystemExit 1 DifferentDepths.
Definition UnmappedFields (names : gset string) : Exception :=
  SystemExit 1 (EntriesNotAvailable names).

Inductive result (A : Type) : Type :=
  | Ok (a : A)
  | Raise (e : Exception).
Arguments Ok {A} a.
Arguments Raise {A} e.

#[global] Instance result_ret : MRet result := @Ok.
#[global] Instance result_bind : MBind result :=
  λ A B f m, match m with Ok a => f a | Raise e => Raise e end.

Definition is_Ok {A} (r : result A) : Prop := ∃ a, r = Ok a.

(** [d[k]] raises [KeyError] on a missing key. *)
Definition getitem {V} (d : Dict.t V) (k : string) : result V :=
  match Dict.get d k with
  | Some v => Ok v
  | None => Raise (KeyError k)
  end.

(** [value.shape[0]]: indexing the empty tuple raises. *)
Definition shape_0 (value : NDArray) : result nat :=
  match shape value with
  | [] => Raise IndexError
  | d :: _ => Ok d
  end.

(** [data_block[0].shape]: the first record of the array, which exists
    only if the array has an axis 0 of length at least one. *)
Definition getitem_0_shape (data_block : NDArray) : result (list nat) :=
  match shape data_block with
  | [] => Raise IndexError
  | 0 :: _ => Raise IndexError
  | S _ :: element_shape => Ok element_shape
  end.

(** [hdf5plugin.Bitshuffle(cname=..., clevel=...)], for the two codec
    names the constructor passes.  The library is not part of the sources;
    it refuses a level outside 0..22 with a [ValueError], and the object
    it builds holds the level for [zstd] only. *)
Definition Bitshuffle (cname : string) (clevel : Z) : result Hdf5Filter :=
  if decide (0 ≤ clevel ≤ 22)%Z then
    if decide (cname = "zstd")
    then Ok (BitshuffleObject cname (Some clevel))
    else Ok (BitshuffleObject cname None)
  else Raise ValueError.

(** ** Configuration *)

(** Modelled from the spec: the configuration record
    [DataSerializerParameters] of [models/parameters.py] is not part of the
    sources at hand.  Its fields are those the constructor reads:
    [compression], which the constructor compares with string literals,
    the integer [compression_level] and the mapping [fields]. *)
Record Hdf5BinarySerializerParameters := {
  compression : string;
  compression_level : Z;
  fields : Dict.t string
}.

Record DataSerializerParameters := {
  Hdf5BinarySerializer : option Hdf5BinarySerializerParameters
}.

(** ** The serializer *)

(** The attributes of an instance. *)
Record Serializer := {
  _compression_options : gmap string KwValue;
  _hdf5_fields : Dict.t string
}.

(** Lines 36-65: the chain of comparisons on [compression]. *)
Definition compression_options (cfg : Hdf5BinarySerializerParameters)
  : result (gmap string KwValue) :=
  if decide (compression cfg = "gzip") then
    Ok {[ "compression" := kw_str "gzip";
          "compression_opts" := kw_int (compression_level cfg);
          "shuffle" := kw_bool false ]}
  else if decide (compression cfg = "gzip_with_shuffle") then
    Ok {[ "compression" := kw_str "gzip";
          "compression_opts" := kw_int (compression_level cfg);
          "shuffle" := kw_bool true ]}
  else if decide (compression cfg = "bitshuffle_with_lz4") then
    filter ← Bitshuffle "lz4" (compression_level cfg);
    Ok {[ "compression" := kw_filter filter ]}
  else if decide (compression cfg = "bitshuffle_with_zstd") then
    filter ← Bitshuffle "zstd" (compression_level cfg);
    Ok {[ "compression" := kw_filter filter ]}
  else if decide (compression cfg = "zfp") then
    Ok {[ "compression" := kw_filter Zfp ]}
  else Ok ∅.

(** [Hdf5BinarySerializer.__init__] *)
Definition __init__ (parameters : DataSerializerParameters)
  : result Serializer :=
  match Hdf5BinarySerializer parameters with
  | None => Raise (SystemExit 1 NoConfigurationParameters)
  | Some cfg =>
      options ← compression_options cfg;
      Ok {| _compression_options := options;
            _hdf5_fields := fields cfg |}
  end.

(** Lines 86-90: the list comprehension over the keys of the batch. *)
Fixpoint depths_from (data : Batch) (names : list string)
  : result (list nat) :=
  match names with
  | [] => Ok []
  | data_block :: names' =>
      v ← getitem data data_block;
      match v with
      | Some value =>
          d ← shape_0 value;
          ds ← depths_from data names';
          Ok (d :: ds)
      | None => depths_from data names'
      end
  end.

Definition depth_of_data_blocks (data : Batch) : result (list nat) :=
  depths_from data (Dict.keys data).

(** Lines 86-97 *)
Definition check_depths (data : Batch) : result unit :=
  depth_of_data_blocks ← depth_of_data_blocks data;
  if decide (size (list_to_set depth_of_data_blocks : gset nat) ≠ 1)
  then Raise (SystemExit 1 DifferentDepths)
  else Ok ().

(** Line 99: [data.keys() - self._hdf5_fields.keys()] *)
Definition mismatching_entries (self : Serializer) (data : Batch)
  : gset string :=
  list_to_set (Dict.keys data) ∖ list_to_set (Dict.keys (_hdf5_fields self)).

(** Lines 99-107 *)
Definition check_entries (self : Serializer) (data : Batch) : result unit :=
  if decide (size (mismatching_entries self data) ≠ 0)
  then Raise (SystemExit 1 (EntriesNotAvailable (mismatching_entries self data)))
  else Ok ().

(** The two checks made before a container is opened. *)
Definition validate (self : Serializer) (data : Batch) : result unit :=
  check_depths data ;; check_entries self data.

Section Writer.

(** The checks [h5py] itself makes on a [create_dataset] call (a name
    already in use, an element type or a chunk shape it cannot store, a
    filter that is not available): given the datasets the file holds
    and the request, whether the call goes through. *)
Variable h5_accepts : H5File → Dataset → bool.

Definition create_dataset (fh : H5File) (request : Dataset)
  : result H5File :=
  if h5_accepts fh request then Ok (fh ++ [request]) else Raise H5Error.

(** Lines 112-124: the loop over the keys of the batch. *)
Fixpoint write_blocks (self : Serializer) (data : Batch)
    (names : list string) (fh : H5File) : result H5File :=
  match names with
  | [] => Ok fh
  | data_block_name :: names' =>
      if Dict.contains (_hdf5_fields self) data_block_name then
        v ← getitem data data_block_name;
        match v with
        | Some data_block =>
            name ← getitem (_hdf5_fields self) data_block_name;
            element_shape ← getitem_0_shape data_block;
            fh' ← create_dataset fh
                    {| ds_name := name;
                       ds_shape := shape data_block;
                       ds_dtype := dtype data_block;
                       ds_chunks := 1 :: element_shape;
                       ds_data := buffer data_block;
                       ds_kwargs := _compression_options self |};
            write_blocks self data names' fh'
        | None => write_blocks self data names' fh
        end
      else write_blocks self data names' fh
  end.

(** Lines 109-126: a fresh file in a fresh buffer, closed and read
    back. *)
Definition write_container (self : Serializer) (data : Batch)
  : result Blob :=
  write_blocks self data (Dict.keys data) [].

(** The body of the loop of [__call__] for one batch. *)
Definition serialize_batch (self : Serializer) (data : Batch)
  : result Blob :=
  validate self data ;; write_container self data.

(** [Hdf5BinarySerializer.__call__] on a finite stream: the blobs the
    generator yields, and the exception that ended it, if any. *)
Fixpoint __call__ (self : Serializer) (stream : list Batch)
  : list Blob * option Exception :=
  match stream with
  | [] => ([], None)
  | data :: stream' =>
      match serialize_batch self data with
      | Raise e => ([], Some e)
      | Ok byte_block =>
          let '(blobs, res) := __call__ self stream' in
          (byte_block :: blobs, res)
      end
  end.

End Writer.

(** ** What the loop is expected to write *)

(** [present data k a]: the batch holds the array [a] under [k]. *)
Definition present (data : Batch) (k : string) (a : NDArray) : Prop :=
  Dict.get data k = Some (Some a).

(** [absent data k]: the batch holds [None] under [k]. *)
Definition absent (data : Batch) (k : string) : Prop :=
  Dict.get data k = Some None.

(** Every array of the batch has an axis 0. *)
Definition has_axis_0 (data : Batch) : Prop :=
  ∀ k a, present data k a → shape a ≠ [].

(** The dataset asked for on behalf of the array [a], under the output
    name [name]. *)
Definition dataset_of (self : Serializer) (name : string) (a : NDArray)
  : Dataset :=
  {| ds_name := name;
     ds_shape := shape a;
     ds_dtype := dtype a;
     ds_chunks := 1 :: tail (shape a);
     ds_data := buffer a;
     ds_kwargs := _compression_options self |}.

Definition request_for (self : Serializer) (data : Batch) (k : string)
  : option Dataset :=
  match Dict.get data k, Dict.get (_hdf5_fields self) k with
  | Some (Some a), Some name => Some (dataset_of self name a)
  | _, _ => None
  end.

(** The requests for the arrays of the batch, in the order of the keys of
    the batch. *)
Definition requests_from (self : Serializer) (data : Batch)
    (names : list string) : list Dataset :=
  omap (request_for self data) names.

Definition requests (self : Serializer) (data : Batch) : list Dataset :=
  requests_from self data (Dict.keys data).

(** The output names of the arrays of the batch, in the order of the
    keys of the batch. *)
Definition names_in_batch_order (self : Serializer) (data : Batch)
  : list string :=
  omap (λ k, match Dict.get data k with
             | Some (Some _) => Dict.get (_hdf5_fields self) k
             | _ => None
             end) (Dict.keys data).

(** The same names, in the order of the configured mapping. *)
Definition names_in_mapping_order (self : Serializer) (data : Batch)
  : list string :=
  omap (λ kv, match Dict.get data kv.1 with
              | Some (Some _) => Some kv.2
              | _ => None
              end) (_hdf5_fields self).

(** The depths of the arrays of the batch. *)
Definition present_depths (data : Batch) (names : list string) : list nat :=
  omap (λ k, match Dict.get data k with
             | Some (Some a) => head (shape a)
             | _ => None
             end) names.

(** The library lets a sequence of requests through, one after the
    other. *)
Fixpoint accepts_all (h5_accepts : H5File → Dataset → bool)
    (fh : H5File) (reqs : list Dataset) : bool :=
  match reqs with
  | [] => true
  | r :: reqs' => h5_accepts fh r && accepts_all h5_accepts (fh ++ [r]) reqs'
  end.

(** A valid batch passes both checks. *)
Definition valid_batch (self : Serializer) (data : Batch) : Prop :=
  validate self data = Ok ().

(** A batch that can be written: each of its arrays has a first record,
    and the library lets its datasets through. *)
Definition writable_batch (h5_accepts : H5File → Dataset → bool)
    (self : Serializer) (data : Batch) : Prop :=
  (∀ k a, present data k a → ∃ d, head (shape a) = Some (S d))
  ∧ accepts_all h5_accepts [] (requests self data) = true.

(** The arrays of the batch, as the loops meet them: in the order of the
    keys, each read back under its key. *)
Definition arrays (data : Batch) : list NDArray :=
  omap (λ k, mjoin (Dict.get data k)) (Dict.keys data).

(** The same serializer with further entries at the end of its mapping. *)
Definition with_more_fields (self : Serializer) (more : Dict.t string)
  : Serializer :=
  {| _compression_options := _compression_options self;
     _hdf5_fields := _hdf5_fields self ++ more |}.

(** The option values whose option set holds the level. *)
Definition levelled_values : list string :=
  ["gzip"; "gzip_with_shuffle"; "bitshuffle_with_zstd"].

(** The option values for which a bitshuffle object is built. *)
Definition bitshuffle_values : list string :=
  ["bitshuffle_with_lz4"; "bitshuffle_with_zstd"].

(** ** Sample data *)

(** A library that only refuses a name already in use. *)
Definition h5_fresh_name (fh : H5File) (request : Dataset) : bool :=
  bool_decide (ds_name request ∉ ds_name <$> fh).

Definition fields_ab : Dict.t string := [("a", "alpha"); ("b", "beta")].

Definition configured (c : string) (level : Z) (f : Dict.t string)
  : DataSerializerParameters :=
  {| Hdf5BinarySerializer :=
       Some {| compression := c; compression_level := level; fields := f |} |}.

Definition gzip_ab : Serializer :=
  {| _compression_options :=
       {[ "compression" := kw_str "gzip";
          "compression_opts" := kw_int 4;
          "shuffle" := kw_bool false ]};
     _hdf5_fields := fields_ab |}.

Definition int32 : DType := dt_int 32.
Definition float32 : DType := dt_float 32.

(** The option values the constructor compares [compression] with. *)
Definition compared_values : list string :=
  ["gzip"; "gzip_with_shuffle"; "bitshuffle_with_lz4";
   "bitshuffle_with_zstd"; "zfp"].

(** The option values of the enumeration of the specification. *)
Definition enumeration : list string := "none" :: compared_values.

Definition batch_ba : Batch :=
  [("b", Some (zeros [2; 3] int32)); ("a", Some (zeros [2] float32))].

Definition batch_3_4 : Batch :=
  [("a", Some (zeros [3] int32)); ("b", Some (zeros [4] int32))].

Definition batch_foo_none : Batch := [("foo", None)].

Definition batch_foo_3_4 : Batch :=
  [("foo", Some (zeros [3] int32)); ("a", Some (zeros [4] int32))].

Definition batch_a_foo : Batch :=
  [("a", Some (zeros [2] int32)); ("foo", Some (zeros [2] int32))].

Definition batch_a_none : Batch := [("a", None)].

Definition batch_none_b : Batch :=
  [("a", None); ("b", Some (zeros [2; 3] int32))].

Definition batch_none_empty : Batch :=
  [("a", None); ("b", Some (zeros [0; 4] float32))].

Definition batch_none_b_foo : Batch :=
  [("a", None); ("b", Some (zeros [2] int32)); ("foo", Some (zeros [2] int32))].

(** The end-to-end scenario of the specification. *)
Definition lz4_a : Serializer :=
  {| _compression_options :=
       {[ "compression" := kw_filter (BitshuffleObject "lz4" None) ]};
     _hdf5_fields := [("a", "alpha")] |}.

Definition batch_1_8 : Batch := [("a", Some (zeros [1; 8] int32))].

Definition batch_scalar : Batch :=
  [("a", Some (zeros [3] int32)); ("foo", Some (zeros [] float32))].

Definition batch_ab : Batch :=
  [("a", Some (zeros [2] float32)); ("b", Some (zeros [2; 3] int32))].

Definition fields_abc : Dict.t string :=
  [("a", "alpha"); ("b", "beta"); ("c", "gamma")].

Definition gzip_abc : Serializer :=
  {| _compression_options := _compression_options gzip_ab;
     _hdf5_fields := fields_abc |}.

(** Depths 3 and 4, and an array without axes, all under mapped keys. *)
Definition batch_3_4_scalar : Batch :=
  [("a", Some (zeros [3] int32)); ("b", Some (zeros [4] int32));
   ("c", Some (zeros [] int32))].

(** Two fields written under one name. *)
Definition gzip_same_name : Serializer :=
  {| _compression_options := _compression_options gzip_ab;
     _hdf5_fields := [("a", "alpha"); ("b", "alpha")] |}.


(** ** Lookups in dictionaries *)

Section DictFacts.
Context {V : Type}.
Implicit Types (d : Dict.t V) (k : string).

Lemma get_Some_keys d k v : Dict.get d k = Some v → k ∈ Dict.keys d.
Proof.
  induction d as [|[k' v'] d IH]; simpl; [done|].
  rewrite elem_of_cons. case_decide; subst; auto.
Qed.

Lemma keys_get_Some d k : k ∈ Dict.keys d → ∃ v, Dict.get d k = Some v.
Proof.
  induction d as [|[k' v'] d IH]; simpl.
  - by rewrite elem_of_nil.
  - rewrite elem_of_cons. case_decide; subst; [eauto|].
    intros [->|Hin]; [done|auto].
Qed.

Lemma get_None_keys d k : k ∉ Dict.keys d → Dict.get d k = None.
Proof.
  intros Hk. destruct (Dict.get d k) eqn:E; [|done].
  by apply get_Some_keys in E.
Qed.

Lemma contains_keys d k : Dict.contains d k = true ↔ k ∈ Dict.keys d.
Proof. unfold Dict.contains. by rewrite bool_decide_eq_true. Qed.

Lemma getitem_keys d k :
  k ∈ Dict.keys d → ∃ v, getitem d k = Ok v ∧ Dict.get d k = Some v.
Proof.
  intros [v Hv]%keys_get_Some. exists v. unfold getitem. by rewrite Hv.
Qed.

Lemma get_remove_ne d k k' :
  k' ≠ k → Dict.get (Dict.remove k d) k' = Dict.get d k'.
Proof.
  intros Hne. unfold Dict.remove.
  induction d as [|[k0 v0] d IH]; [done|].
  rewrite filter_cons. simpl. repeat case_decide; simpl; subst; try done.
  - by rewrite decide_True.
  - by rewrite decide_False.
Qed.

Lemma keys_remove d k :
  Dict.keys (Dict.remove k d) = filter (λ k', k' ≠ k) (Dict.keys d).
Proof.
  unfold Dict.remove, Dict.keys.
  induction d as [|[k0 v0] d IH]; [done|].
  rewrite fmap_cons, !filter_cons. simpl.
  case_decide; [rewrite fmap_cons; simpl|]; by rewrite IH.
Qed.

End DictFacts.

(** ** Sequencing *)

Lemma is_Ok_Raise {A} (e : Exception) : ¬ is_Ok (@Raise A e).
Proof. by intros [a Ha]. Qed.

(** ** The depth check *)

Lemma elem_of_present_depths data names d :
  d ∈ present_depths data names ↔
  ∃ k a, k ∈ names ∧ present data k a ∧ head (shape a) = Some d.
Proof.
  unfold present_depths, present. rewrite list_elem_of_omap. split.
  - intros (k & Hk & Hd).
    destruct (Dict.get data k) as [[a|]|] eqn:E; try done. eauto.
  - intros (k & a & Hk & Hp & Hd). exists k. by rewrite Hp.
Qed.

(** With every array of rank one at least, the comprehension collects the
    depth of each array of the batch. *)
Lemma depths_from_ranked data names :
  names ⊆ Dict.keys data →
  (∀ k a, k ∈ names → present data k a → shape a ≠ []) →
  depths_from data names = Ok (present_depths data names).
Proof.
  induction names as [|k names IH]; intros Hsub Hrank; [done|].
  assert (k ∈ k :: names) as Hhd by (apply elem_of_cons; by left).
  assert (∀ x, x ∈ names → x ∈ k :: names) as Htl
    by (intros x Hx; apply elem_of_cons; by right).
  destruct (getitem_keys _ _ (Hsub _ Hhd)) as (v & Hv & Hget).
  assert (depths_from data names = Ok (present_depths data names)) as IH'.
  { apply IH; [by intros x ?%Htl%Hsub|]. intros x a ?%Htl. by apply Hrank. }
  simpl. rewrite Hv. simpl. unfold present_depths. simpl. rewrite Hget.
  destruct v as [a|]; [|done].
  pose proof (Hrank k a Hhd Hget) as Hne.
  unfold shape_0. destruct (shape a) as [|d sh]; [done|]. simpl.
  by rewrite IH'.
Qed.

(** A zero-dimensional array makes the comprehension raise. *)
Lemma depths_from_scalar data names k a :
  names ⊆ Dict.keys data →
  k ∈ names → present data k a → shape a = [] →
  depths_from data names = Raise IndexError.
Proof.
  intros Hsub Hk Hp Hs.
  induction names as [|k' names IH]; [by apply elem_of_nil in Hk|].
  assert (k' ∈ k' :: names) as Hhd by (apply elem_of_cons; by left).
  assert (∀ x, x ∈ names → x ∈ k' :: names) as Htl
    by (intros x Hx; apply elem_of_cons; by right).
  destruct (getitem_keys _ _ (Hsub _ Hhd)) as (v & Hv & Hget).
  simpl. rewrite Hv. simpl.
  destruct (decide (k' = k)) as [->|Hne].
  - unfold present in Hp. rewrite Hp in Hget. injection Hget as <-.
    unfold shape_0. by rewrite Hs.
  - assert (depths_from data names = Raise IndexError) as ->.
    { apply IH; [by intros x ?%Htl%Hsub|].
      apply elem_of_cons in Hk as [->|Hk]; done. }
    destruct v as [a'|]; [|done].
    unfold shape_0. by destruct (shape a').
Qed.

Lemma check_depths_differ data k1 a1 k2 a2 :
  has_axis_0 data →
  present data k1 a1 → present data k2 a2 →
  head (shape a1) ≠ head (shape a2) →
  check_depths data = Raise InconsistentDepth.
Proof.
  intros Hrank H1 H2 Hne. unfold check_depths, depth_of_data_blocks.
  rewrite depths_from_ranked; [simpl|done|by eauto].
  case_decide as Hsz; [done|]. exfalso.
  pose proof (Hrank _ _ H1) as R1. pose proof (Hrank _ _ H2) as R2.
  destruct (shape a1) as [|d1 s1] eqn:E1; [done|].
  destruct (shape a2) as [|d2 s2] eqn:E2; [done|].
  assert (d1 = d2) as ->; [|done].
  apply (size_singleton_inv _ _ _ Hsz); apply elem_of_list_to_set,
    elem_of_present_depths.
  - exists k1, a1. split_and!; [by eapply get_Some_keys|done|by rewrite E1].
  - exists k2, a2. split_and!; [by eapply get_Some_keys|done|by rewrite E2].
Qed.

Lemma check_depths_none_present data :
  (∀ k a, ¬ present data k a) →
  check_depths data = Raise InconsistentDepth.
Proof.
  intros Hnone. unfold check_depths, depth_of_data_blocks.
  rewrite depths_from_ranked; [simpl|done|by intros ??? ?%Hnone].
  assert (present_depths data (Dict.keys data) = []) as ->.
  { apply elem_of_nil_inv. intros d (k & a & _ & Hp & _)%elem_of_present_depths.
    by eapply Hnone. }
  done.
Qed.

Lemma check_depths_common data d k a :
  present data k a →
  (∀ k' a', present data k' a' → head (shape a') = Some d) →
  check_depths data = Ok ().
Proof.
  intros Hp Hall. unfold check_depths, depth_of_data_blocks.
  rewrite depths_from_ranked; [simpl|done|].
  2:{ intros k' a' _ Hp' Hs. apply Hall in Hp'. by rewrite Hs in Hp'. }
  assert (list_to_set (present_depths data (Dict.keys data)) = ({[ d ]} : gset nat))
    as ->.
  { apply set_eq. intros x.
    rewrite elem_of_list_to_set, elem_of_present_depths, elem_of_singleton.
    split.
    - intros (k' & a' & _ & Hp' & Hx). apply Hall in Hp'. congruence.
    - intros ->. exists k, a. split_and!; [by eapply get_Some_keys|done|by eapply Hall]. }
  rewrite size_singleton. by case_decide.
Qed.

(** ** The check of the keys *)

Lemma elem_of_mismatching_entries self data x :
  x ∈ mismatching_entries self data ↔
  x ∈ Dict.keys data ∧ x ∉ Dict.keys (_hdf5_fields self).
Proof.
  unfold mismatching_entries.
  by rewrite elem_of_difference, !elem_of_list_to_set.
Qed.

Lemma check_entries_mapped self data :
  Dict.keys data ⊆ Dict.keys (_hdf5_fields self) →
  check_entries self data = Ok ().
Proof.
  intros Hsub. unfold check_entries.
  assert (mismatching_entries self data = ∅) as ->.
  { apply set_eq. intros x. rewrite elem_of_mismatching_entries.
    split; [intros [?%Hsub ?]; done|by rewrite elem_of_empty]. }
  rewrite size_empty. by case_decide.
Qed.

Lemma check_entries_unmapped self data k :
  k ∈ Dict.keys data → k ∉ Dict.keys (_hdf5_fields self) →
  check_entries self data = Raise (UnmappedFields (mismatching_entries self data)).
Proof.
  intros Hk Hnk. unfold check_entries.
  case_decide as Hsz; [done|]. exfalso.
  apply size_empty_inv in Hsz.
  assert (k ∈ mismatching_entries self data) as Hin
    by by apply elem_of_mismatching_entries.
  rewrite Hsz in Hin. by apply elem_of_empty in Hin.
Qed.

Lemma check_entries_Ok self data :
  check_entries self data = Ok () →
  Dict.keys data ⊆ Dict.keys (_hdf5_fields self).
Proof.
  intros Hok k Hk.
  destruct (decide (k ∈ Dict.keys (_hdf5_fields self))) as [|Hnk]; [done|].
  by rewrite (check_entries_unmapped _ _ _ Hk Hnk) in Hok.
Qed.

(** ** The writing loop *)

Lemma request_for_Some self data k a name :
  present data k a → Dict.get (_hdf5_fields self) k = Some name →
  request_for self data k = Some (dataset_of self name a).
Proof. unfold request_for, present. by intros -> ->. Qed.

Lemma request_for_absent self data k :
  absent data k → request_for self data k = None.
Proof. unfold request_for, absent. by intros ->. Qed.

Lemma request_for_unmapped self data k :
  k ∉ Dict.keys (_hdf5_fields self) → request_for self data k = None.
Proof.
  intros Hk%get_None_keys. unfold request_for. rewrite Hk.
  by destruct (Dict.get data k) as [[?|]|].
Qed.

Lemma getitem_0_shape_Ok a sh :
  getitem_0_shape a = Ok sh ↔ ∃ d, shape a = S d :: sh.
Proof.
  unfold getitem_0_shape. destruct (shape a) as [|[|d] sh']; split;
    try done; try (by intros [? ?]).
  - intros [= <-]. eauto.
  - by intros [? [= -> ->]].
Qed.

Section Writing.

Variable h5_accepts : H5File → Dataset → bool.
Implicit Types (self : Serializer) (data : Batch) (fh : H5File).

(** Whenever the loop returns, the file has gained the requests for the
    arrays of the batch, in the order of its keys; the library let each
    of them through, and each array written has a first record. *)
Lemma write_blocks_Ok self data names fh fh' :
  write_blocks h5_accepts self data names fh = Ok fh' →
  fh' = fh ++ requests_from self data names
  ∧ accepts_all h5_accepts fh (requests_from self data names) = true
  ∧ ∀ k a, k ∈ names → present data k a →
      k ∈ Dict.keys (_hdf5_fields self) → ∃ d, head (shape a) = Some (S d).
Proof.
  revert fh. induction names as [|k names IH]; intros fh; simpl.
  { intros [= <-]. rewrite app_nil_r. split_and!; [done..|].
    by intros ?? ?%elem_of_nil. }
  unfold requests_from in *. simpl.
  destruct (Dict.contains (_hdf5_fields self) k) eqn:Hc.
  - apply contains_keys in Hc as Hk.
    destruct (getitem_keys _ _ Hk) as (name & Hname & Hget).
    unfold getitem. rewrite Hget.
    destruct (Dict.get data k) as [[a|]|] eqn:Hd; simpl; [| |done].
    + destruct (getitem_0_shape a) as [sh|] eqn:Hsh; simpl; [|done].
      apply getitem_0_shape_Ok in Hsh as [d Hshape].
      unfold create_dataset.
      rewrite (request_for_Some _ _ _ _ _ Hd Hget).
      assert (dataset_of self name a =
              {| ds_name := name; ds_shape := shape a; ds_dtype := dtype a;
                 ds_chunks := 1 :: sh; ds_data := buffer a;
                 ds_kwargs := _compression_options self |}) as <-.
      { unfold dataset_of. by rewrite Hshape. }
      destruct (h5_accepts fh (dataset_of self name a)) eqn:Hacc; simpl;
        [|done].
      intros (-> & Hall & Hpos)%IH. rewrite <- app_assoc. simpl.
      split_and!; [done|by rewrite Hacc|].
      intros k' a' [->|Hin]%elem_of_cons Hp Hm; [|by eauto].
      unfold present in Hp. rewrite Hd in Hp. injection Hp as <-.
      exists d. by rewrite Hshape.
    + rewrite (request_for_absent _ _ _ Hd).
      intros (-> & Hall & Hpos)%IH. split_and!; [done..|].
      intros k' a' [->|Hin]%elem_of_cons Hp Hm; [|by eauto].
      unfold present in Hp. by rewrite Hd in Hp.
  - assert (k ∉ Dict.keys (_hdf5_fields self)) as Hk.
    { intros ?%contains_keys. congruence. }
    rewrite (request_for_unmapped _ _ _ Hk).
    intros (-> & Hall & Hpos)%IH. split_and!; [done..|].
    intros k' a' [->|Hin]%elem_of_cons Hp Hm; [done|by eauto].
Qed.

(** Conversely, the loop returns as soon as the arrays to write have a
    first record and the library lets the requests through. *)
Lemma write_blocks_complete self data names fh :
  names ⊆ Dict.keys data →
  (∀ k a, k ∈ names → present data k a →
     k ∈ Dict.keys (_hdf5_fields self) → ∃ d, head (shape a) = Some (S d)) →
  accepts_all h5_accepts fh (requests_from self data names) = true →
  write_blocks h5_accepts self data names fh
  = Ok (fh ++ requests_from self data names).
Proof.
  revert fh. induction names as [|k names IH]; intros fh Hsub Hpos Hall.
  { simpl. by rewrite app_nil_r. }
  assert (names ⊆ Dict.keys data) as Hsub'.
  { intros x Hx. apply Hsub, elem_of_cons. by right. }
  assert (∀ k' a, k' ∈ names → present data k' a →
            k' ∈ Dict.keys (_hdf5_fields self) →
            ∃ d, head (shape a) = Some (S d)) as Hpos'.
  { intros k' a Hin. apply Hpos, elem_of_cons. by right. }
  assert (k ∈ Dict.keys data) as Hk.
  { apply Hsub, elem_of_cons. by left. }
  destruct (getitem_keys _ _ Hk) as (v & Hv & Hget).
  unfold requests_from in *. simpl in *.
  destruct (Dict.contains (_hdf5_fields self) k) eqn:Hc.
  - apply contains_keys in Hc as Hm.
    destruct (getitem_keys _ _ Hm) as (name & Hname & Hgetn).
    rewrite Hv. simpl. destruct v as [a|].
    + rewrite Hname. simpl.
      destruct (Hpos k a) as [d Hd]; [apply elem_of_cons; by left|done..|].
      assert (∃ sh, shape a = S d :: sh) as [sh Hshape].
      { destruct (shape a) as [|d' sh]; [done|]. injection Hd as ->. eauto. }
      assert (getitem_0_shape a = Ok sh) as ->.
      { apply getitem_0_shape_Ok. eauto. }
      simpl. rewrite (request_for_Some _ _ _ _ _ Hget Hgetn) in *.
      simpl in Hall. apply andb_true_iff in Hall as [Hacc Hall].
      unfold create_dataset.
      assert (dataset_of self name a =
              {| ds_name := name; ds_shape := shape a; ds_dtype := dtype a;
                 ds_chunks := 1 :: sh; ds_data := buffer a;
                 ds_kwargs := _compression_options self |}) as <-.
      { unfold dataset_of. by rewrite Hshape. }
      rewrite Hacc. simpl. rewrite IH by done. by rewrite <- app_assoc.
    + rewrite (request_for_absent _ _ _ Hget) in *. by apply IH.
  - assert (k ∉ Dict.keys (_hdf5_fields self)) as Hm.
    { intros ?%contains_keys. congruence. }
    rewrite (request_for_unmapped _ _ _ Hm) in *. by apply IH.
Qed.

(** The loop raises on the first array it meets that has no first
    record, before asking the library for anything. *)
Lemma write_blocks_no_record self data names fh k a :
  names ⊆ Dict.keys data →
  names ⊆ Dict.keys (_hdf5_fields self) →
  (∀ k' a', k' ∈ names → present data k' a' → head (shape a') = Some 0) →
  k ∈ names → present data k a →
  write_blocks h5_accepts self data names fh = Raise IndexError.
Proof.
  intros Hsub Hmap Hzero Hk Hp.
  induction names as [|k' names IH]; [by apply elem_of_nil in Hk|].
  assert (k' ∈ Dict.keys data) as Hk'.
  { apply Hsub, elem_of_cons. by left. }
  assert (k' ∈ Dict.keys (_hdf5_fields self)) as Hm'.
  { apply Hmap, elem_of_cons. by left. }
  destruct (getitem_keys _ _ Hk') as (v & Hv & Hget).
  destruct (getitem_keys _ _ Hm') as (name & Hname & _).
  simpl. apply contains_keys in Hm' as ->. rewrite Hv. simpl.
  destruct v as [a'|].
  - rewrite Hname. simpl.
    assert (head (shape a') = Some 0) as Hd.
    { apply (Hzero k'); [apply elem_of_cons; by left|done]. }
    unfold getitem_0_shape. destruct (shape a') as [|[|d] sh]; done.
  - apply IH.
    + intros x Hx. apply Hsub, elem_of_cons. by right.
    + intros x Hx. apply Hmap, elem_of_cons. by right.
    + intros k'' a'' Hin. apply Hzero, elem_of_cons. by right.
    + apply elem_of_cons in Hk as [->|Hk]; [|done].
      unfold present in Hp. congruence.
Qed.

End Writing.

Lemma names_of_requests self data names :
  ds_name <$> requests_from self data names
  = omap (λ k, match Dict.get data k with
               | Some (Some _) => Dict.get (_hdf5_fields self) k
               | _ => None
               end) names.
Proof.
  unfold requests_from. induction names as [|k names IH]; [done|].
  simpl in *. unfold request_for at 1.
  destruct (Dict.get data k) as [[a|]|]; try done.
  destruct (Dict.get (_hdf5_fields self) k); simpl; [f_equal|]; exact IH.
Qed.

(** ** Absent fields and the depth computation *)

Lemma depths_from_remove_absent data k names :
  absent data k →
  depths_from (Dict.remove k data) (filter (λ k', k' ≠ k) names)
  = depths_from data names.
Proof.
  intros Habs. induction names as [|k' names IH]; [done|].
  rewrite filter_cons. case_decide as Hne; simpl.
  - unfold getitem. rewrite (get_remove_ne _ _ _ Hne), IH. done.
  - subst k'. unfold getitem.
    unfold absent in Habs. rewrite Habs. simpl. exact IH.
Qed.

Lemma depth_of_data_blocks_remove_absent data k :
  absent data k →
  depth_of_data_blocks (Dict.remove k data) = depth_of_data_blocks data.
Proof.
  intros Habs. unfold depth_of_data_blocks.
  rewrite keys_remove. by apply depths_from_remove_absent.
Qed.

Lemma elem_of_requests_from self data names ds :
  ds ∈ requests_from self data names ↔
  ∃ k a name, k ∈ names ∧ present data k a
    ∧ Dict.get (_hdf5_fields self) k = Some name
    ∧ ds = dataset_of self name a.
Proof.
  unfold requests_from. rewrite list_elem_of_omap. split.
  - intros (k & Hk & Hr). unfold request_for in Hr.
    destruct (Dict.get data k) as [[a|]|] eqn:Hd; try done.
    destruct (Dict.get (_hdf5_fields self) k) as [name|] eqn:Hn; [|done].
    injection Hr as <-. by exists k, a, name.
  - intros (k & a & name & Hk & Hp & Hn & ->). exists k.
    split; [done|]. by apply request_for_Some.
Qed.

Lemma kwargs_of_requests self data names :
  names ⊆ Dict.keys (_hdf5_fields self) →
  ds_kwargs <$> requests_from self data names
  = replicate (length (omap (λ k, mjoin (Dict.get data k)) names))
      (_compression_options self).
Proof.
  unfold requests_from. induction names as [|k names IH]; intros Hsub; [done|].
  assert (k ∈ Dict.keys (_hdf5_fields self)) as Hk.
  { apply Hsub, elem_of_cons. by left. }
  assert (ds_kwargs <$> omap (request_for self data) names
          = replicate (length (omap (λ k, mjoin (Dict.get data k)) names))
              (_compression_options self)) as IH'.
  { apply IH. intros x Hx. apply Hsub, elem_of_cons. by right. }
  destruct (keys_get_Some _ _ Hk) as [name Hname].
  simpl.
  assert (request_for self data k
          = dataset_of self name <$> mjoin (Dict.get data k)) as ->.
  { unfold request_for. rewrite Hname.
    by destruct (Dict.get data k) as [[?|]|]. }
  destruct (Dict.get data k) as [[a|]|]; simpl;
    [f_equal; exact IH'|exact IH'..].
Qed.

(** ** The constructor *)

Lemma compression_options_other cfg :
  compression cfg ∉ compared_values → compression_options cfg = Ok ∅.
Proof.
  unfold compared_values. rewrite !not_elem_of_cons.
  intros (? & ? & ? & ? & ? & _). unfold compression_options.
  by repeat case_decide.
Qed.

(** The chain of comparisons raises only through [Bitshuffle]. *)
Lemma compression_options_Raise cfg e :
  compression_options cfg = Raise e ↔
  e = ValueError
  ∧ compression cfg ∈ bitshuffle_values
  ∧ ¬ (0 ≤ compression_level cfg ≤ 22)%Z.
Proof.
  unfold compression_options, Bitshuffle, bitshuffle_values.
  rewrite !elem_of_cons, elem_of_nil.
  repeat case_decide; simpl; split; try done;
    try (intros [= <-]); try (intros (-> & Hc & Hl)); try tauto;
    try (split_and!; [done|tauto|done]);
    try (destruct Hc as [Hc|[Hc|[]]]; congruence).
Qed.

(** C1, as amended: construction fails with the configuration error
    exactly when the configuration record of the serializer is missing;
    with the record it fails only when a bitshuffle object is asked for
    with a level outside 0..22, with the [ValueError] of the library; a
    compression value other than the five the constructor compares with,
    recognized or not, yields the empty option set. *)
Theorem init_fails_iff_no_configuration parameters :
  (__init__ parameters = Raise ConfigurationError ↔
   Hdf5BinarySerializer parameters = None)
  ∧ (∀ e, __init__ parameters = Raise e ↔
       (e = ConfigurationError ∧ Hdf5BinarySerializer parameters = None)
       ∨ (e = ValueError
          ∧ ∃ cfg, Hdf5BinarySerializer parameters = Some cfg
              ∧ compression cfg ∈ bitshuffle_values
              ∧ ¬ (0 ≤ compression_level cfg ≤ 22)%Z))
  ∧ (∀ cfg, Hdf5BinarySerializer parameters = Some cfg →
     compression cfg ∉ compared_values →
     __init__ parameters
     = Ok {| _compression_options := ∅; _hdf5_fields := fields cfg |}).
Proof.
  assert (∀ cfg e,
            compression_options cfg
            ≫= (λ options, Ok {| _compression_options := options;
                                 _hdf5_fields := fields cfg |})
            = Raise e ↔ compression_options cfg = Raise e) as Hbind.
  { intros cfg e. destruct (compression_options cfg); simpl; split;
      intros; congruence. }
  unfold __init__. destruct (Hdf5BinarySerializer parameters) as [cfg|].
  - split_and!.
    + rewrite Hbind, compression_options_Raise. split; [|done].
      by intros [[=] _].
    + intros e. rewrite Hbind, compression_options_Raise. split.
      * intros (-> & Hc & Hl). right. split; [done|]. by exists cfg.
      * intros [[_ [=]]|(-> & cfg' & [= <-] & Hc & Hl)]. done.
    + intros ? [= <-] Hc. by rewrite compression_options_other.
  - split_and!; [done| |done].
    intros e. split.
    + intros [= <-]. by left.
    + intros [[-> _]|(_ & cfg & [=] & _)]. done.
Qed.

(** ** Batches and streams of batches *)

Section Serializing.

Variable h5_accepts : H5File → Dataset → bool.
Implicit Types (self : Serializer) (data : Batch) (stream : list Batch).

Lemma serialize_batch_Ok self data blob :
  serialize_batch h5_accepts self data = Ok blob →
  check_depths data = Ok ()
  ∧ check_entries self data = Ok ()
  ∧ write_blocks h5_accepts self data (Dict.keys data) [] = Ok blob.
Proof.
  unfold serialize_batch, validate, write_container.
  destruct (check_depths data) as [[]|]; simpl; [|done].
  destruct (check_entries self data) as [[]|]; simpl; done.
Qed.

Lemma serialize_batch_requests self data blob :
  serialize_batch h5_accepts self data = Ok blob → blob = requests self data.
Proof.
  intros (_ & _ & Hw)%serialize_batch_Ok.
  by apply write_blocks_Ok in Hw as [-> _].
Qed.

(** The batches that are serialized are the valid ones that can be
    written. *)
Lemma valid_batch_serialized self data :
  valid_batch self data ∧ writable_batch h5_accepts self data ↔
  serialize_batch h5_accepts self data = Ok (requests self data).
Proof.
  unfold valid_batch, writable_batch, serialize_batch, write_container.
  split.
  - intros (Hv & Hpos & Hacc). rewrite Hv. simpl.
    apply (write_blocks_complete h5_accepts self data (Dict.keys data) []);
      [done| |done].
    intros k a _ Hp _. by apply (Hpos k a).
  - intros Hs. pose proof (serialize_batch_Ok _ _ _ Hs) as (Hd & He & Hw).
    unfold validate. rewrite Hd. simpl. split; [done|].
    apply write_blocks_Ok in Hw as (_ & Hacc & Hpos). split; [|done].
    intros k a Hp.
    assert (k ∈ Dict.keys data) as Hk by by eapply get_Some_keys.
    apply (Hpos k a Hk Hp). by apply (check_entries_Ok _ _ He).
Qed.

Lemma call_cons_Raise self data stream e :
  serialize_batch h5_accepts self data = Raise e →
  __call__ h5_accepts self (data :: stream) = ([], Some e).
Proof. simpl. by intros ->. Qed.

(** C2, as amended: the datasets of the container of a batch that is
    serialized are created in the order of the keys of the batch. *)
Theorem datasets_in_batch_order self data blob :
  serialize_batch h5_accepts self data = Ok blob →
  ds_name <$> blob = names_in_batch_order self data.
Proof.
  intros ->%serialize_batch_requests. apply names_of_requests.
Qed.

(** C3, as amended: a batch of arrays that all have an axis 0, two of
    which differ in their length along it, ends the generator with the
    inconsistent-depth error, and no blob is yielded for it. *)
Theorem differing_depths_rejected self data k1 a1 k2 a2 d1 d2 :
  has_axis_0 data →
  present data k1 a1 → present data k2 a2 →
  shape_0 a1 = Ok d1 → shape_0 a2 = Ok d2 → d1 ≠ d2 →
  serialize_batch h5_accepts self data = Raise InconsistentDepth
  ∧ ∀ stream,
      __call__ h5_accepts self (data :: stream) = ([], Some InconsistentDepth).
Proof.
  intros Hrank H1 H2 E1 E2 Hne.
  assert (serialize_batch h5_accepts self data = Raise InconsistentDepth)
    as Hs.
  { unfold serialize_batch, validate.
    rewrite (check_depths_differ data k1 a1 k2 a2); [done..|].
    unfold shape_0 in E1, E2.
    destruct (shape a1), (shape a2); simplify_eq/=. congruence. }
  split; [done|]. intros stream. by apply call_cons_Raise.
Qed.

(** C4, as amended: a batch with a key outside the configured mapping
    never yields a blob.  The depth check comes first: if the batch
    passes it, the generator ends with the unmapped-fields error, which
    names the keys of the batch that the mapping lacks and no other; if
    it does not, the exception of the depth check is the one reported,
    which is the inconsistent-depth error whenever the arrays of the
    batch all have an axis 0. *)
Theorem unmapped_keys_rejected self data k :
  k ∈ Dict.keys data → k ∉ Dict.keys (_hdf5_fields self) →
  ¬ is_Ok (serialize_batch h5_accepts self data)
  ∧ (check_depths data = Ok () →
     serialize_batch h5_accepts self data
     = Raise (UnmappedFields (mismatching_entries self data))
     ∧ ∀ x, x ∈ mismatching_entries self data ↔
            x ∈ Dict.keys data ∧ x ∉ Dict.keys (_hdf5_fields self))
  ∧ (∀ e, check_depths data = Raise e →
       serialize_batch h5_accepts self data = Raise e)
  ∧ (has_axis_0 data → check_depths data ≠ Ok () →
     serialize_batch h5_accepts self data = Raise InconsistentDepth).
Proof.
  intros Hk Hnk.
  pose proof (check_entries_unmapped _ _ _ Hk Hnk) as He.
  assert (has_axis_0 data → check_depths data ≠ Ok () →
          check_depths data = Raise InconsistentDepth) as Hdepth.
  { intros Hrank. unfold check_depths, depth_of_data_blocks.
    rewrite depths_from_ranked; [simpl|done|by eauto].
    by case_decide. }
  unfold serialize_batch, validate. rewrite He.
  destruct (check_depths data) as [[]|e'] eqn:Hd; simpl.
  - split_and!; [apply is_Ok_Raise| |done|done].
    intros _. split; [done|]. apply elem_of_mismatching_entries.
  - split_and!; [apply is_Ok_Raise|done|by intros e [= <-]|].
    intros Hrank Hne. by injection (Hdepth Hrank Hne) as ->.
Qed.

(** Every blob the generator yields is the serialization of a batch of
    the stream. *)
Lemma call_blobs self stream blobs res blob :
  __call__ h5_accepts self stream = (blobs, res) → blob ∈ blobs →
  ∃ data, data ∈ stream ∧ serialize_batch h5_accepts self data = Ok blob.
Proof.
  revert blobs. induction stream as [|data stream IH]; intros blobs; simpl.
  - intros [= <- <-] ?%elem_of_nil. done.
  - destruct (serialize_batch h5_accepts self data) as [b|e] eqn:Hs.
    + destruct (__call__ h5_accepts self stream) as [blobs' res'].
      intros [= <- <-] [->|Hin]%elem_of_cons.
      * exists data. split; [apply elem_of_cons; by left|done].
      * destruct (IH _ eq_refl Hin) as (data' & ? & ?).
        exists data'. split; [apply elem_of_cons; by right|done].
    + intros [= <- <-] ?%elem_of_nil. done.
Qed.

(** C5, as amended: on a finite stream of valid batches that can be
    written, the generator yields as many blobs as there are batches and
    ends without an exception; the i-th blob is the serialization of the
    i-th batch, the container of the datasets of its arrays. *)
Theorem one_blob_per_batch self stream :
  Forall (λ data, valid_batch self data
                  ∧ writable_batch h5_accepts self data) stream →
  ∃ blobs,
    __call__ h5_accepts self stream = (blobs, None)
    ∧ length blobs = length stream
    ∧ ∀ i data, stream !! i = Some data →
        blobs !! i = Some (requests self data)
        ∧ serialize_batch h5_accepts self data = Ok (requests self data).
Proof.
  induction 1 as [|data stream Hv _ (blobs & Hcall & Hlen & Hall)].
  - exists []. by split_and!.
  - apply valid_batch_serialized in Hv.
    exists (requests self data :: blobs). simpl. rewrite Hv, Hcall, Hlen.
    split_and!; [done..|].
    intros [|i] data'; simpl; [|by apply Hall].
    by intros [= <-].
Qed.

(** C6: in the container of a batch that is serialized, the array of
    every field sits in a dataset that has the mapped output name, the
    shape, the element type and the contents of the array, and chunks
    of one record: a one followed by the dimensions after the first;
    the container holds no other dataset. *)
Theorem datasets_mirror_arrays self data blob :
  serialize_batch h5_accepts self data = Ok blob →
  (∀ k a, present data k a →
     ∃ name ds, Dict.get (_hdf5_fields self) k = Some name
       ∧ ds ∈ blob
       ∧ ds_name ds = name
       ∧ ds_shape ds = shape a
       ∧ ds_dtype ds = dtype a
       ∧ ds_chunks ds = 1 :: tail (shape a)
       ∧ ds_data ds = buffer a
       ∧ ∃ d, shape a = S d :: tail (shape a))
  ∧ (∀ ds, ds ∈ blob →
     ∃ k a, present data k a
       ∧ Dict.get (_hdf5_fields self) k = Some (ds_name ds)
       ∧ ds_shape ds = shape a
       ∧ ds_dtype ds = dtype a
       ∧ ds_chunks ds = 1 :: tail (shape a)
       ∧ ds_data ds = buffer a).
Proof.
  intros (_ & He & Hw)%serialize_batch_Ok.
  apply check_entries_Ok in He.
  apply write_blocks_Ok in Hw as (-> & _ & Hpos). split.
  - intros k a Hp.
    assert (k ∈ Dict.keys data) as Hk by by eapply get_Some_keys.
    destruct (keys_get_Some _ _ (He _ Hk)) as [name Hname].
    exists name, (dataset_of self name a). split_and!; try done.
    + apply elem_of_requests_from. by exists k, a, name.
    + destruct (Hpos k a Hk Hp (He _ Hk)) as [d Hd].
      exists d. destruct (shape a); simplify_eq/=. done.
  - intros ds (k & a & name & _ & Hp & Hn & ->)%elem_of_requests_from.
    by exists k, a.
Qed.

(** C7, as amended: take a batch whose keys are all mapped, with a
    field that is [None], with at least one array, whose arrays share
    one depth that is not zero, and whose datasets the library lets
    through.  It is serialized; its container holds the datasets of its
    arrays and nothing for the field that is [None]: no dataset bears
    the output name of that field, unless an array of the batch is
    mapped to the same name; and the depths collected are those of the
    batch without that field. *)
Theorem absent_field_omitted self data k k' a' d :
  absent data k →
  Dict.keys data ⊆ Dict.keys (_hdf5_fields self) →
  present data k' a' →
  (∀ k'' a'', present data k'' a'' → head (shape a'') = Some (S d)) →
  accepts_all h5_accepts [] (requests self data) = true →
  serialize_batch h5_accepts self data = Ok (requests self data)
  ∧ request_for self data k = None
  ∧ (∀ name, Dict.get (_hdf5_fields self) k = Some name →
       (∀ k'' a'', present data k'' a'' →
          Dict.get (_hdf5_fields self) k'' ≠ Some name) →
       name ∉ ds_name <$> requests self data)
  ∧ depth_of_data_blocks data = depth_of_data_blocks (Dict.remove k data).
Proof.
  intros Habs Hmap Hp Hdepth Hacc. split_and!.
  - unfold serialize_batch, validate, write_container.
    rewrite (check_depths_common data (S d) k' a' Hp Hdepth).
    rewrite (check_entries_mapped _ _ Hmap). simpl.
    apply (write_blocks_complete h5_accepts self data (Dict.keys data) []);
      [done| |done].
    intros k'' a'' _ Hp'' _. eauto.
  - by apply request_for_absent.
  - intros name Hname Hother
      (ds & -> & (k'' & a'' & name' & _ & Hp'' & Hn & ->)
         %elem_of_requests_from)%list_elem_of_fmap.
    by apply (Hother k'' a'' Hp'').
  - by rewrite depth_of_data_blocks_remove_absent.
Qed.

(** The blob at a position of the output is the serialization of the
    batch at that position of the stream. *)
Lemma call_lookup self stream blobs res i data blob :
  __call__ h5_accepts self stream = (blobs, res) →
  stream !! i = Some data → blobs !! i = Some blob →
  serialize_batch h5_accepts self data = Ok blob.
Proof.
  revert blobs i. induction stream as [|data' stream IH]; intros blobs i;
    simpl; [done|].
  destruct (serialize_batch h5_accepts self data') as [b|e] eqn:Hs.
  - destruct (__call__ h5_accepts self stream) as [blobs' res'].
    intros [= <- <-]. destruct i as [|i]; simpl.
    + by intros [= <-] [= <-].
    + by apply IH.
  - by intros [= <- <-].
Qed.

(** C8, as amended: the constructor turns [gzip] and [gzip_with_shuffle]
    into deflate at the configured level, without and with byte shuffle.
    For the two bitshuffle values it asks the library for a bitshuffle
    object with the configured level: a level outside 0..22 ends the
    construction with a [ValueError]; otherwise the object has the codec
    lz4, and then holds no level, or the codec zstd with the level.  For
    [zfp] it takes the default object, whatever the level.  The option
    set of an instance is the one computed at construction, and in every
    blob that the instance yields each array of the batch has its
    dataset, with that option set. *)
Theorem compression_options_fixed level f :
  __init__ (configured "gzip" level f)
  = Ok {| _compression_options :=
            {[ "compression" := kw_str "gzip";
               "compression_opts" := kw_int level;
               "shuffle" := kw_bool false ]};
          _hdf5_fields := f |}
  ∧ __init__ (configured "gzip_with_shuffle" level f)
    = Ok {| _compression_options :=
              {[ "compression" := kw_str "gzip";
                 "compression_opts" := kw_int level;
                 "shuffle" := kw_bool true ]};
            _hdf5_fields := f |}
  ∧ ((0 ≤ level ≤ 22)%Z →
     __init__ (configured "bitshuffle_with_lz4" level f)
     = Ok {| _compression_options :=
               {[ "compression" :=
                    kw_filter (BitshuffleObject "lz4" None) ]};
             _hdf5_fields := f |}
     ∧ __init__ (configured "bitshuffle_with_zstd" level f)
       = Ok {| _compression_options :=
                 {[ "compression" :=
                      kw_filter (BitshuffleObject "zstd" (Some level)) ]};
               _hdf5_fields := f |})
  ∧ (¬ (0 ≤ level ≤ 22)%Z →
     __init__ (configured "bitshuffle_with_lz4" level f) = Raise ValueError
     ∧ __init__ (configured "bitshuffle_with_zstd" level f)
       = Raise ValueError)
  ∧ __init__ (configured "zfp" level f)
    = Ok {| _compression_options := {[ "compression" := kw_filter Zfp ]};
            _hdf5_fields := f |}
  ∧ ∀ c self stream blobs res,
      __init__ (configured c level f) = Ok self →
      __call__ h5_accepts self stream = (blobs, res) →
      compression_options
        {| compression := c; compression_level := level; fields := f |}
      = Ok (_compression_options self)
      ∧ ∀ i data blob,
          stream !! i = Some data → blobs !! i = Some blob →
          ds_kwargs <$> blob
          = replicate (length (arrays data)) (_compression_options self).
Proof.
  split_and!; try reflexivity.
  - intros Hl. unfold __init__, configured, compression_options, Bitshuffle.
    simpl. by rewrite !decide_True by done.
  - intros Hl. unfold __init__, configured, compression_options, Bitshuffle.
    simpl. by rewrite !decide_False by done.
  - intros c self stream blobs res Hinit Hcall. split.
    + unfold __init__, configured in Hinit. simpl in Hinit.
      destruct (compression_options _) as [options|]; simpl in Hinit;
        [|done].
      by injection Hinit as <-.
    + intros i data blob Hdata Hblob.
      pose proof (call_lookup _ _ _ _ _ _ _ Hcall Hdata Hblob) as Hs.
      pose proof (serialize_batch_Ok _ _ _ Hs) as (_ & He & _).
      apply check_entries_Ok in He.
      apply serialize_batch_requests in Hs as ->.
      by apply kwargs_of_requests.
Qed.

(** C9: a batch without any array, the empty batch among them, fails
    the depth check with the inconsistent-depth error, since no depth
    is collected; the generator ends there and yields nothing for
    it. *)
Theorem no_array_rejected self data :
  (∀ k a, ¬ present data k a) →
  depth_of_data_blocks data = Ok []
  ∧ validate self data = Raise InconsistentDepth
  ∧ serialize_batch h5_accepts self data = Raise InconsistentDepth
  ∧ ∀ stream,
      __call__ h5_accepts self (data :: stream) = ([], Some InconsistentDepth).
Proof.
  intros Hnone.
  assert (depth_of_data_blocks data = Ok []) as Hd.
  { unfold depth_of_data_blocks.
    rewrite depths_from_ranked; [|done|by intros ??? ?%Hnone].
    f_equal. apply elem_of_nil_inv.
    intros d (k & a & _ & Hp & _)%elem_of_present_depths.
    by eapply Hnone. }
  assert (validate self data = Raise InconsistentDepth) as Hv.
  { unfold validate. by rewrite check_depths_none_present. }
  assert (serialize_batch h5_accepts self data = Raise InconsistentDepth)
    as Hs.
  { unfold serialize_batch. by rewrite Hv. }
  split_and!; [done..|]. intros stream. by apply call_cons_Raise.
Qed.

(** C10: a batch that is serialized has no array whose first axis is
    empty.  A batch with an array, whose arrays all have depth zero and
    whose keys are all mapped, passes both checks, the depths collected
    being zeros only; the loop then raises an index error on the first
    record of an array, and no blob is yielded. *)
Theorem empty_axis_rejected_by_writer self :
  (∀ data blob k a,
     serialize_batch h5_accepts self data = Ok blob →
     present data k a → ∃ d, head (shape a) = Some (S d))
  ∧ (∀ data k a,
       present data k a →
       (∀ k' a', present data k' a' → head (shape a') = Some 0) →
       Dict.keys data ⊆ Dict.keys (_hdf5_fields self) →
       validate self data = Ok ()
       ∧ (∃ depths, depth_of_data_blocks data = Ok depths
            ∧ list_to_set depths = ({[ 0 ]} : gset nat))
       ∧ serialize_batch h5_accepts self data = Raise IndexError
       ∧ ∀ stream,
           __call__ h5_accepts self (data :: stream) = ([], Some IndexError)).
Proof.
  split.
  - intros data blob k a (_ & He & Hw)%serialize_batch_Ok Hp.
    apply check_entries_Ok in He.
    apply write_blocks_Ok in Hw as (_ & _ & Hpos).
    assert (k ∈ Dict.keys data) as Hk by by eapply get_Some_keys.
    by apply (Hpos k a Hk Hp), He.
  - intros data k a Hp Hzero Hmap.
    assert (validate self data = Ok ()) as Hv.
    { unfold validate.
      rewrite (check_depths_common data 0 k a Hp Hzero).
      by rewrite check_entries_mapped. }
    assert (serialize_batch h5_accepts self data = Raise IndexError) as Hs.
    { unfold serialize_batch, write_container. rewrite Hv. simpl.
      apply (write_blocks_no_record h5_accepts self data _ [] k a);
        [done|done| |by eapply get_Some_keys|done].
      intros k' a' _. apply Hzero. }
    split_and!; [done| |done|].
    + exists (present_depths data (Dict.keys data)). split.
      * unfold depth_of_data_blocks. apply depths_from_ranked; [done|].
        intros k' a' _ Hp' Hs'. apply Hzero in Hp'. by rewrite Hs' in Hp'.
      * apply set_eq. intros x.
        rewrite elem_of_list_to_set, elem_of_present_depths,
          elem_of_singleton.
        split.
        -- intros (k' & a' & _ & Hp' & Hx). apply Hzero in Hp'. congruence.
        -- intros ->. exists k, a.
           split_and!; [by eapply get_Some_keys|done|by eapply Hzero].
    + intros stream. by apply call_cons_Raise.
Qed.

End Serializing.

(** ** Worked examples *)

Ltac lookup_cases :=
  unfold present, absent; simpl; intros;
  repeat (case_decide; simplify_eq/=); try done.

Ltac is_key := simpl; apply list_elem_of_In; simpl; auto.

Ltac is_no_key :=
  simpl; rewrite !not_elem_of_cons; split_and!;
  try apply not_elem_of_nil; done.

(** C1, as stated, fails: the value ["lzma"] is not in the enumeration,
    and construction goes through with the empty option set. *)
Lemma init_accepts_unrecognized_compression :
  ("lzma" ∉ enumeration)
  ∧ __init__ (configured "lzma" 3 fields_ab)
    = Ok {| _compression_options := ∅; _hdf5_fields := fields_ab |}.
Proof.
  split; [unfold enumeration, compared_values; is_no_key|].
  vm_compute. reflexivity.
Qed.

(** The value ["none"] takes the last branch of the constructor. *)
Lemma init_unrecognized_witness :
  __init__ (configured "none" 3 fields_ab)
  = Ok {| _compression_options := ∅; _hdf5_fields := fields_ab |}.
Proof.
  apply (proj2 (proj2 (init_fails_iff_no_configuration
                         (configured "none" 3 fields_ab))) _ eq_refl).
  unfold compared_values. is_no_key.
Defined.

(** C2, as stated, fails: with the mapping [a -> alpha, b -> beta] and a
    batch that lists [b] before [a], [beta] is created before [alpha]. *)
Lemma datasets_not_in_mapping_order :
  ∃ blob,
    serialize_batch h5_fresh_name gzip_ab batch_ba = Ok blob
    ∧ ds_name <$> blob = ["beta"; "alpha"]
    ∧ names_in_mapping_order gzip_ab batch_ba = ["alpha"; "beta"]
    ∧ ds_name <$> blob ≠ names_in_mapping_order gzip_ab batch_ba.
Proof.
  eexists. split_and!; [vm_compute; reflexivity..|].
  vm_compute. discriminate.
Qed.

Lemma datasets_in_batch_order_witness :
  ∃ blob,
    serialize_batch h5_fresh_name gzip_ab batch_ba = Ok blob
    ∧ ds_name <$> blob = ["beta"; "alpha"].
Proof.
  exists (requests gzip_ab batch_ba).
  assert (serialize_batch h5_fresh_name gzip_ab batch_ba
          = Ok (requests gzip_ab batch_ba)) as H
    by (vm_compute; reflexivity).
  split; [exact H|].
  rewrite (datasets_in_batch_order h5_fresh_name _ _ _ H).
  vm_compute. reflexivity.
Defined.

(** C3, as stated, fails: the arrays of [a] and [b] differ in depth, yet
    the array of [c] has no axis 0 and the batch ends with an index
    error, not with the inconsistent-depth one. *)
Lemma differing_depths_reported_as_index_error :
  present batch_3_4_scalar "a" (zeros [3] int32)
  ∧ present batch_3_4_scalar "b" (zeros [4] int32)
  ∧ shape_0 (zeros [3] int32) = Ok 3
  ∧ shape_0 (zeros [4] int32) = Ok 4
  ∧ serialize_batch h5_fresh_name gzip_abc batch_3_4_scalar
    = Raise IndexError
  ∧ IndexError ≠ InconsistentDepth.
Proof. split_and!; try (vm_compute; reflexivity). done. Qed.

(** Depths 3 and 4. *)
Lemma differing_depths_rejected_witness :
  serialize_batch h5_fresh_name gzip_ab batch_3_4 = Raise InconsistentDepth.
Proof.
  apply (differing_depths_rejected h5_fresh_name gzip_ab batch_3_4
           "a" (zeros [3] int32) "b" (zeros [4] int32) 3 4);
    try reflexivity; [|lia].
  unfold has_axis_0, batch_3_4. lookup_cases.
Defined.

(** C4, as stated, fails: the key [foo] is outside the mapping, yet the
    error is the inconsistent-depth one, for a batch without any array as
    for one whose arrays differ in depth. *)
Lemma unmapped_key_reported_as_depth_error :
  "foo" ∈ Dict.keys batch_foo_none
  ∧ "foo" ∈ Dict.keys batch_foo_3_4
  ∧ ("foo" ∉ Dict.keys (_hdf5_fields gzip_ab))
  ∧ serialize_batch h5_fresh_name gzip_ab batch_foo_none
    = Raise InconsistentDepth
  ∧ serialize_batch h5_fresh_name gzip_ab batch_foo_3_4
    = Raise InconsistentDepth
  ∧ InconsistentDepth ≠ UnmappedFields {[ "foo" ]}.
Proof.
  split_and!; try (vm_compute; reflexivity); try done;
    first [is_key|is_no_key].
Qed.

(** A batch of one depth with the key [foo]. *)
Lemma unmapped_keys_rejected_witness :
  serialize_batch h5_fresh_name gzip_ab batch_a_foo
  = Raise (UnmappedFields {[ "foo" ]}).
Proof.
  assert ("foo" ∈ Dict.keys batch_a_foo) as Hk by is_key.
  assert ("foo" ∉ Dict.keys (_hdf5_fields gzip_ab)) as Hnk by is_no_key.
  destruct (unmapped_keys_rejected h5_fresh_name gzip_ab batch_a_foo "foo" Hk Hnk)
    as (_ & Hd & _).
  destruct Hd as [Hs _]; [vm_compute; reflexivity|].
  rewrite Hs. vm_compute. reflexivity.
Defined.

(** C5, as stated, fails: the batch passes both checks, yet its array
    has no first record and the generator yields no blob for it. *)
Lemma valid_batch_without_blob :
  valid_batch gzip_ab batch_none_empty
  ∧ __call__ h5_fresh_name gzip_ab [batch_none_empty]
    = ([], Some IndexError).
Proof. split; vm_compute; reflexivity. Qed.

(** Three batches, three blobs. *)
Lemma one_blob_per_batch_witness :
  ∃ blobs,
    __call__ h5_fresh_name gzip_ab [batch_ba; batch_none_b; batch_ba]
    = (blobs, None)
    ∧ length blobs = 3.
Proof.
  destruct (one_blob_per_batch h5_fresh_name gzip_ab
              [batch_ba; batch_none_b; batch_ba]) as (blobs & Hcall & Hlen & _).
  - repeat (apply Forall_cons_2;
              [apply (valid_batch_serialized h5_fresh_name);
               vm_compute; reflexivity|]).
    apply Forall_nil_2.
  - exists blobs. split; [exact Hcall|exact Hlen].
Defined.

(** An array of shape (2, 3) is written in chunks of shape (1, 3). *)
Lemma datasets_mirror_arrays_witness :
  ∃ ds,
    ds ∈ requests gzip_ab batch_ba
    ∧ ds_name ds = "beta"
    ∧ ds_shape ds = [2; 3]
    ∧ ds_dtype ds = int32
    ∧ ds_chunks ds = [1; 3].
Proof.
  assert (serialize_batch h5_fresh_name gzip_ab batch_ba
          = Ok (requests gzip_ab batch_ba)) as H
    by (vm_compute; reflexivity).
  destruct (datasets_mirror_arrays h5_fresh_name _ _ _ H) as [Hall _].
  destruct (Hall "b" (zeros [2; 3] int32) eq_refl)
    as (name & ds & Hname & Hin & Hn & Hs & Ht & Hc & _).
  exists ds. injection Hname as <-. by split_and!.
Defined.

(** C7, as stated, fails: the mapped field [a] is [None] and the other
    arrays agree on their depth in each of these batches; the first has
    no array, the second an array of depth zero, the third a key outside
    the mapping, and none is serialized. *)
Lemma absent_field_batches_rejected :
  absent batch_a_none "a" ∧ absent batch_none_empty "a"
  ∧ absent batch_none_b_foo "a"
  ∧ "a" ∈ Dict.keys (_hdf5_fields gzip_ab)
  ∧ serialize_batch h5_fresh_name gzip_ab batch_a_none
    = Raise InconsistentDepth
  ∧ serialize_batch h5_fresh_name gzip_ab batch_none_empty
    = Raise IndexError
  ∧ serialize_batch h5_fresh_name gzip_ab batch_none_b_foo
    = Raise (UnmappedFields {[ "foo" ]}).
Proof.
  split_and!; try (vm_compute; reflexivity). is_key.
Qed.

(** The field [a] is [None], the array of [b] has depth 2. *)
Lemma absent_field_omitted_witness :
  serialize_batch h5_fresh_name gzip_ab batch_none_b
  = Ok (requests gzip_ab batch_none_b)
  ∧ ds_name <$> requests gzip_ab batch_none_b = ["beta"].
Proof.
  destruct (absent_field_omitted h5_fresh_name gzip_ab batch_none_b
              "a" "b" (zeros [2; 3] int32) 1) as (Hs & _).
  - reflexivity.
  - intros x. simpl. rewrite !elem_of_cons. tauto.
  - reflexivity.
  - unfold batch_none_b. lookup_cases.
  - vm_compute. reflexivity.
  - split; [exact Hs|]. vm_compute. reflexivity.
Defined.

(** C8, as stated, fails: for [bitshuffle_with_lz4] the levels 1 and 9
    give one and the same instance, whose option set holds no level, and
    the level 23 ends the construction for [bitshuffle_with_zstd]. *)
Lemma bitshuffle_level_dropped_or_refused :
  __init__ (configured "bitshuffle_with_lz4" 1 fields_ab)
  = __init__ (configured "bitshuffle_with_lz4" 9 fields_ab)
  ∧ is_Ok (__init__ (configured "bitshuffle_with_lz4" 1 fields_ab))
  ∧ __init__ (configured "bitshuffle_with_zstd" 23 fields_ab)
    = Raise ValueError.
Proof.
  split_and!; [vm_compute; reflexivity| |vm_compute; reflexivity].
  eexists. vm_compute. reflexivity.
Qed.

(** The end-to-end scenario, with two batches. *)
Lemma compression_options_fixed_witness :
  __init__ (configured "bitshuffle_with_lz4" 5 [("a", "alpha")]) = Ok lz4_a
  ∧ ∃ blob,
      (__call__ h5_fresh_name lz4_a [batch_1_8; batch_1_8]).1 !! 1
      = Some blob
      ∧ ds_kwargs <$> blob
        = [ {[ "compression" := kw_filter (BitshuffleObject "lz4" None) ]} ].
Proof.
  destruct (compression_options_fixed h5_fresh_name 5 [("a", "alpha")])
    as (_ & _ & Hlz4 & _ & _ & Hall).
  destruct Hlz4 as [Hlz4 _]; [lia|].
  split; [exact Hlz4|].
  destruct (__call__ h5_fresh_name lz4_a [batch_1_8; batch_1_8])
    as [blobs res] eqn:Hcall.
  destruct (Hall _ _ _ _ _ Hlz4 Hcall) as [_ Hkw].
  assert (blobs = [requests lz4_a batch_1_8; requests lz4_a batch_1_8])
    as -> by (vm_compute in Hcall; by injection Hcall as <- _).
  exists (requests lz4_a batch_1_8). split; [reflexivity|].
  rewrite (Hkw 1 batch_1_8 (requests lz4_a batch_1_8) eq_refl eq_refl).
  reflexivity.
Defined.

(** The empty batch, and a batch whose only field is [None]. *)
Lemma no_array_rejected_witness :
  serialize_batch h5_fresh_name gzip_ab [] = Raise InconsistentDepth
  ∧ serialize_batch h5_fresh_name gzip_ab batch_a_none
    = Raise InconsistentDepth.
Proof.
  split.
  - apply (no_array_rejected h5_fresh_name gzip_ab []). lookup_cases.
  - apply (no_array_rejected h5_fresh_name gzip_ab batch_a_none).
    unfold batch_a_none. lookup_cases.
Defined.

(** An array of shape (0, 4). *)
Lemma empty_axis_rejected_by_writer_witness :
  validate gzip_ab batch_none_empty = Ok ()
  ∧ serialize_batch h5_fresh_name gzip_ab batch_none_empty = Raise IndexError.
Proof.
  destruct (empty_axis_rejected_by_writer h5_fresh_name gzip_ab) as [_ H].
  destruct (H batch_none_empty "b" (zeros [0; 4] float32))
    as (Hv & _ & Hs & _).
  - reflexivity.
  - unfold batch_none_empty. lookup_cases.
  - intros x. simpl. rewrite !elem_of_cons. tauto.
  - split; [exact Hv|exact Hs].
Defined.

(** ** Further properties of the checks *)

Lemma depths_from_Ok_ranked data names ds :
  depths_from data names = Ok ds →
  ∀ k a, k ∈ names → present data k a → shape a ≠ [].
Proof.
  revert ds. induction names as [|k' names IH]; intros ds Hds k a Hk Hp.
  { by apply elem_of_nil in Hk. }
  simpl in Hds. unfold getitem in Hds.
  destruct (Dict.get data k') as [[a'|]|] eqn:Hget; simpl in Hds; [| |done].
  - unfold shape_0 in Hds.
    destruct (shape a') as [|d sh] eqn:Hsh; simpl in Hds; [done|].
    destruct (depths_from data names) as [ds'|]; simpl in Hds; [|done].
    apply elem_of_cons in Hk as [->|Hk]; [|by eapply IH].
    unfold present in Hp. rewrite Hget in Hp. injection Hp as <-.
    by rewrite Hsh.
  - apply elem_of_cons in Hk as [->|Hk]; [|by eapply IH].
    unfold present in Hp. by rewrite Hget in Hp.
Qed.

Lemma depths_from_Raise data names e :
  names ⊆ Dict.keys data →
  depths_from data names = Raise e →
  e = IndexError ∧ ∃ k a, k ∈ names ∧ present data k a ∧ shape a = [].
Proof.
  induction names as [|k' names IH]; intros Hsub; [done|].
  assert (k' ∈ k' :: names) as Hhd by (apply elem_of_cons; by left).
  assert (∀ x, x ∈ names → x ∈ k' :: names) as Htl
    by (intros x Hx; apply elem_of_cons; by right).
  destruct (getitem_keys _ _ (Hsub _ Hhd)) as (v & Hv & Hget).
  assert (depths_from data names = Raise e →
          e = IndexError
          ∧ ∃ k a, k ∈ k' :: names ∧ present data k a ∧ shape a = []) as IH'.
  { intros (-> & k & a & Hk & Hp & Hs)%IH; [|by intros x ?%Htl%Hsub].
    split; [done|]. exists k, a. auto. }
  simpl. rewrite Hv. simpl. destruct v as [a'|]; [|done].
  unfold shape_0. destruct (shape a') as [|d sh] eqn:Hsh; simpl.
  - intros [= <-]. split; [done|]. by exists k', a'.
  - destruct (depths_from data names) as [ds'|]; simpl; [done|].
    intros [= <-]. by apply IH'.
Qed.

Lemma check_depths_Ok data :
  check_depths data = Ok () →
  ∃ d k a, present data k a
    ∧ ∀ k' a', present data k' a' → head (shape a') = Some d.
Proof.
  unfold check_depths, depth_of_data_blocks.
  destruct (depths_from data (Dict.keys data)) as [ds|] eqn:Hds; simpl;
    [|done].
  pose proof (depths_from_Ok_ranked _ _ _ Hds) as Hrank.
  rewrite depths_from_ranked in Hds by done. injection Hds as <-.
  case_decide as Hsz; [done|]. intros _.
  apply size_1_elem_of in Hsz as [d Hd].
  assert (d ∈ present_depths data (Dict.keys data)) as Hin.
  { apply (elem_of_list_to_set (C:=gset nat)). rewrite Hd.
    by apply elem_of_singleton. }
  apply elem_of_present_depths in Hin as (k & a & _ & Hp & _).
  exists d, k, a. split; [done|]. intros k' a' Hp'.
  assert (k' ∈ Dict.keys data) as Hk' by by eapply get_Some_keys.
  pose proof (Hrank k' a' Hk' Hp') as Hne.
  destruct (shape a') as [|d' sh] eqn:Hsh; [done|]. simpl. f_equal.
  assert (d' ∈ (list_to_set (present_depths data (Dict.keys data))
                : gset nat)) as Hd'.
  { apply elem_of_list_to_set, elem_of_present_depths.
    exists k', a'. by rewrite Hsh. }
  rewrite Hd in Hd'. by apply elem_of_singleton in Hd'.
Qed.

(** X1: the two checks let a batch through exactly when it holds an
    array, its arrays all have one and the same length along axis 0, and
    each of its keys is a key of the mapping. *)
Theorem validate_iff self data :
  validate self data = Ok () ↔
  (∃ d k a, present data k a
     ∧ ∀ k' a', present data k' a' → head (shape a') = Some d)
  ∧ Dict.keys data ⊆ Dict.keys (_hdf5_fields self).
Proof.
  unfold validate. split.
  - destruct (check_depths data) as [[]|] eqn:Hd; simpl; [|done].
    intros He. split; [by apply check_depths_Ok|by apply check_entries_Ok].
  - intros [(d & k & a & Hp & Hall) Hsub].
    rewrite (check_depths_common data d k a Hp Hall). simpl.
    by apply check_entries_mapped.
Qed.

(** ** Further properties of the writing loop *)

Lemma shapes_of_requests self data names :
  names ⊆ Dict.keys (_hdf5_fields self) →
  ds_shape <$> requests_from self data names
  = shape <$> omap (λ k, mjoin (Dict.get data k)) names
  ∧ ds_dtype <$> requests_from self data names
    = dtype <$> omap (λ k, mjoin (Dict.get data k)) names
  ∧ ds_data <$> requests_from self data names
    = buffer <$> omap (λ k, mjoin (Dict.get data k)) names.
Proof.
  unfold requests_from. induction names as [|k names IH]; intros Hsub; [done|].
  assert (k ∈ Dict.keys (_hdf5_fields self)) as Hk.
  { apply Hsub, elem_of_cons. by left. }
  destruct IH as (IH1 & IH2 & IH3).
  { intros x Hx. apply Hsub, elem_of_cons. by right. }
  destruct (keys_get_Some _ _ Hk) as [name Hname].
  simpl.
  assert (request_for self data k
          = dataset_of self name <$> mjoin (Dict.get data k)) as ->.
  { unfold request_for. rewrite Hname.
    by destruct (Dict.get data k) as [[?|]|]. }
  destruct (Dict.get data k) as [[a|]|]; simpl;
    (split_and!; [exact IH1 || (f_equal; exact IH1)
                 |exact IH2 || (f_equal; exact IH2)
                 |exact IH3 || (f_equal; exact IH3)]).
Qed.

Section Outcomes.

Variable h5_accepts : H5File → Dataset → bool.
Implicit Types (self : Serializer) (data : Batch) (stream : list Batch).

Lemma write_blocks_Raise self data names fh e :
  names ⊆ Dict.keys data →
  write_blocks h5_accepts self data names fh = Raise e →
  e = IndexError ∨ e = H5Error.
Proof.
  revert fh. induction names as [|k names IH]; intros fh Hsub; [done|].
  assert (k ∈ Dict.keys data) as Hk.
  { apply Hsub, elem_of_cons. by left. }
  assert (names ⊆ Dict.keys data) as Hsub'.
  { intros x Hx. apply Hsub, elem_of_cons. by right. }
  destruct (getitem_keys _ _ Hk) as (v & Hv & _).
  simpl. destruct (Dict.contains (_hdf5_fields self) k) eqn:Hc; [|by apply IH].
  apply contains_keys in Hc.
  destruct (getitem_keys _ _ Hc) as (name & Hname & _).
  rewrite Hv. simpl. destruct v as [a|]; [|by apply IH].
  rewrite Hname. simpl. unfold getitem_0_shape.
  destruct (shape a) as [|[|d] sh]; simpl;
    [(intros [= <-]; by left)..|].
  unfold create_dataset. destruct (h5_accepts fh _); simpl; [by apply IH|].
  intros [= <-]. by right.
Qed.

Lemma write_blocks_refused self data names fh :
  names ⊆ Dict.keys data →
  (∀ k a, k ∈ names → present data k a →
     k ∈ Dict.keys (_hdf5_fields self) → ∃ d, head (shape a) = Some (S d)) →
  accepts_all h5_accepts fh (requests_from self data names) = false →
  write_blocks h5_accepts self data names fh = Raise H5Error.
Proof.
  intros Hsub Hpos Hacc.
  destruct (write_blocks h5_accepts self data names fh) as [fh'|e] eqn:Hw.
  - apply write_blocks_Ok in Hw as (_ & Hall & _). congruence.
  - destruct (write_blocks_Raise _ _ _ _ _ Hsub Hw) as [->| ->]; [|done].
    exfalso. revert fh Hacc Hw.
    induction names as [|k names IH]; intros fh Hacc Hw; [done|].
    assert (k ∈ Dict.keys data) as Hk.
    { apply Hsub, elem_of_cons. by left. }
    assert (names ⊆ Dict.keys data) as Hsub'.
    { intros x Hx. apply Hsub, elem_of_cons. by right. }
    assert (∀ k' a, k' ∈ names → present data k' a →
              k' ∈ Dict.keys (_hdf5_fields self) →
              ∃ d, head (shape a) = Some (S d)) as Hpos'.
    { intros k' a Hin. apply Hpos, elem_of_cons. by right. }
    destruct (getitem_keys _ _ Hk) as (v & Hv & Hget).
    unfold requests_from in *. simpl in Hacc, Hw.
    destruct (Dict.contains (_hdf5_fields self) k) eqn:Hc.
    + apply contains_keys in Hc as Hm.
      destruct (getitem_keys _ _ Hm) as (name & Hname & Hgetn).
      rewrite Hv in Hw. simpl in Hw. destruct v as [a|].
      * rewrite Hname in Hw. simpl in Hw.
        destruct (Hpos k a) as [d Hd]; [apply elem_of_cons; by left|done..|].
        assert (∃ sh, shape a = S d :: sh) as [sh Hshape].
        { destruct (shape a) as [|d' sh]; [done|]. injection Hd as ->. eauto. }
        assert (getitem_0_shape a = Ok sh) as Hsh.
        { apply getitem_0_shape_Ok. eauto. }
        rewrite Hsh in Hw. simpl in Hw.
        rewrite (request_for_Some _ _ _ _ _ Hget Hgetn) in Hacc.
        assert (dataset_of self name a =
                {| ds_name := name; ds_shape := shape a; ds_dtype := dtype a;
                   ds_chunks := 1 :: sh; ds_data := buffer a;
                   ds_kwargs := _compression_options self |}) as Heq.
        { unfold dataset_of. by rewrite Hshape. }
        rewrite <- Heq in Hw. unfold create_dataset in Hw. simpl in Hacc.
        destruct (h5_accepts fh (dataset_of self name a)); simpl in *; [|done].
        by eapply IH.
      * rewrite (request_for_absent _ _ _ Hget) in Hacc. by eapply IH.
    + assert (k ∉ Dict.keys (_hdf5_fields self)) as Hm.
      { intros ?%contains_keys. congruence. }
      rewrite (request_for_unmapped _ _ _ Hm) in Hacc. by eapply IH.
Qed.

(** X2: a batch that holds a zero-dimensional array raises an index error
    while the depths are collected, whatever else it holds and whatever
    the mapping is; the generator ends there. *)
Theorem scalar_array_raises self data k a :
  present data k a → shape a = [] →
  serialize_batch h5_accepts self data = Raise IndexError
  ∧ ∀ stream,
      __call__ h5_accepts self (data :: stream) = ([], Some IndexError).
Proof.
  intros Hp Hs.
  assert (serialize_batch h5_accepts self data = Raise IndexError) as H.
  { unfold serialize_batch, validate, check_depths, depth_of_data_blocks.
    rewrite (depths_from_scalar data _ k a); [done|done| |done..].
    by eapply get_Some_keys. }
  split; [done|]. intros stream. by apply call_cons_Raise.
Qed.

(** X3: a batch can only fail in four ways: an index error, the exit
    for differing depths, the exit that names the keys of the batch the
    mapping lacks, or a refusal by the library.  No lookup ever raises a
    key error. *)
Theorem exceptions_of_a_batch self data e :
  serialize_batch h5_accepts self data = Raise e →
  (e = IndexError ∨ e = InconsistentDepth
   ∨ e = UnmappedFields (mismatching_entries self data) ∨ e = H5Error)
  ∧ ∀ k, e ≠ KeyError k.
Proof.
  intros He.
  assert (e = IndexError ∨ e = InconsistentDepth
          ∨ e = UnmappedFields (mismatching_entries self data)
          ∨ e = H5Error) as Hcases.
  { revert He.
    unfold serialize_batch, validate, check_depths, depth_of_data_blocks.
    destruct (depths_from data (Dict.keys data)) as [ds|e'] eqn:Hds; simpl.
    - case_decide; simpl; [intros [= <-]; auto|].
      unfold check_entries. case_decide; simpl; [intros [= <-]; auto|].
      unfold write_container. intros [->| ->]%write_blocks_Raise; auto.
    - intros [= <-]. apply depths_from_Raise in Hds as [-> _]; auto. }
  split; [done|]. intros k ->.
  by destruct Hcases as [?|[?|[?|?]]].
Qed.

(** X4: a batch that passes both checks and whose arrays have a first
    record fails with the error of the library as soon as the library
    refuses one of its datasets; what was written before is not
    yielded. *)
Theorem refused_dataset_fails_batch self data :
  validate self data = Ok () →
  (∀ k a, present data k a → ∃ d, head (shape a) = Some (S d)) →
  accepts_all h5_accepts [] (requests self data) = false →
  serialize_batch h5_accepts self data = Raise H5Error
  ∧ ∀ stream, __call__ h5_accepts self (data :: stream) = ([], Some H5Error).
Proof.
  intros Hv Hpos Hacc.
  assert (serialize_batch h5_accepts self data = Raise H5Error) as H.
  { unfold serialize_batch, write_container. rewrite Hv. simpl.
    apply write_blocks_refused; [done| |done].
    intros k a _ Hp _. by apply (Hpos k a). }
  split; [done|]. intros stream. by apply call_cons_Raise.
Qed.

(** X5: the generator treats each batch on its own: on two streams put
    end to end it yields the blobs of the first, then, unless the first
    ended with an exception, those of the second. *)
Theorem call_app self stream1 stream2 :
  __call__ h5_accepts self (stream1 ++ stream2)
  = match __call__ h5_accepts self stream1 with
    | (blobs1, None) =>
        let '(blobs2, res) := __call__ h5_accepts self stream2 in
        (blobs1 ++ blobs2, res)
    | (blobs1, Some e) => (blobs1, Some e)
    end.
Proof.
  induction stream1 as [|data stream1 IH]; simpl.
  - by destruct (__call__ h5_accepts self stream2).
  - destruct (serialize_batch h5_accepts self data) as [blob|e]; [|done].
    rewrite IH.
    destruct (__call__ h5_accepts self stream1) as [blobs1 [e|]]; [done|].
    by destruct (__call__ h5_accepts self stream2).
Qed.

(** X6: the generator stops at the first batch that fails.  If it ends
    with an exception, the blobs it has yielded are those of the batches
    before the first failing one, in order, and the exception is the one
    of that batch; if it ends without, every batch has its blob. *)
Theorem call_stops_at_first_failure self stream blobs res :
  __call__ h5_accepts self stream = (blobs, res) →
  match res with
  | None =>
      Forall2 (λ data blob, serialize_batch h5_accepts self data = Ok blob)
        stream blobs
  | Some e =>
      ∃ before data after,
        stream = before ++ data :: after
        ∧ Forall2 (λ data blob, serialize_batch h5_accepts self data = Ok blob)
            before blobs
        ∧ serialize_batch h5_accepts self data = Raise e
  end.
Proof.
  revert blobs res. induction stream as [|data stream IH]; simpl.
  { intros blobs res [= <- <-]. constructor. }
  intros blobs res.
  destruct (serialize_batch h5_accepts self data) as [blob|e] eqn:Hs.
  - destruct (__call__ h5_accepts self stream) as [blobs' res'].
    intros [= <- <-]. specialize (IH _ _ eq_refl).
    destruct res' as [e|].
    + destruct IH as (before & data' & after & -> & Hall & He).
      exists (data :: before), data', after. split_and!; [done| |done].
      by constructor.
    + by constructor.
  - intros [= <- <-]. exists [], data, stream. split_and!; [done| |done].
    constructor.
Qed.

(** X7: in the container of a batch that is serialized, the i-th dataset
    has the shape, the element type and the contents of the i-th array
    of the batch: there are as many datasets as arrays, none written
    twice and none left out. *)
Theorem datasets_follow_arrays self data blob :
  serialize_batch h5_accepts self data = Ok blob →
  ds_shape <$> blob = shape <$> arrays data
  ∧ ds_dtype <$> blob = dtype <$> arrays data
  ∧ ds_data <$> blob = buffer <$> arrays data
  ∧ length blob = length (arrays data).
Proof.
  intros Hs. pose proof (serialize_batch_Ok _ _ _ _ Hs) as (_ & He & _).
  apply check_entries_Ok in He.
  apply serialize_batch_requests in Hs as ->.
  destruct (shapes_of_requests self data (Dict.keys data) He)
    as (H1 & H2 & H3).
  split_and!; [done..|].
  apply (f_equal length) in H1. by rewrite !length_fmap in H1.
Qed.

End Outcomes.

(** ** The mapping and the order of the keys *)

Lemma get_app {V} (d1 d2 : Dict.t V) k :
  Dict.get (d1 ++ d2) k
  = match Dict.get d1 k with Some v => Some v | None => Dict.get d2 k end.
Proof.
  induction d1 as [|[k' v'] d1 IH]; [done|]. simpl. by case_decide.
Qed.

Lemma get_app_unused {V} (d1 d2 : Dict.t V) k :
  k ∉ Dict.keys d2 → Dict.get (d1 ++ d2) k = Dict.get d1 k.
Proof.
  intros Hk. rewrite get_app, (get_None_keys _ _ Hk).
  by destruct (Dict.get d1 k).
Qed.

Lemma contains_app_unused {V} (d1 d2 : Dict.t V) k :
  k ∉ Dict.keys d2 → Dict.contains (d1 ++ d2) k = Dict.contains d1 k.
Proof.
  intros Hk. unfold Dict.contains, Dict.keys. apply bool_decide_ext.
  rewrite fmap_app, elem_of_app. tauto.
Qed.

Lemma get_elem_of {V} (d : Dict.t V) k v :
  NoDup (Dict.keys d) → Dict.get d k = Some v ↔ (k, v) ∈ d.
Proof.
  induction d as [|[k' v'] d IH]; simpl.
  { intros _. split; [done|by intros ?%elem_of_nil]. }
  intros [Hk' Hd]%NoDup_cons. rewrite elem_of_cons, <- (IH Hd).
  case_decide as Hkk; subst.
  - split; [intros [= ->]; by left|].
    intros [[= ->]|Hget]; [done|]. by apply get_Some_keys in Hget.
  - split; [by right|]. by intros [[= -> ->]|?].
Qed.

Section Mapping.

Variable h5_accepts : H5File → Dataset → bool.
Implicit Types (self : Serializer) (data : Batch).

Lemma write_blocks_more_fields self more data names fh :
  (∀ k, k ∈ names → k ∉ Dict.keys more) →
  write_blocks h5_accepts (with_more_fields self more) data names fh
  = write_blocks h5_accepts self data names fh.
Proof.
  revert fh. induction names as [|k names IH]; intros fh Hnot; [done|].
  assert (k ∉ Dict.keys more) as Hk.
  { apply Hnot, elem_of_cons. by left. }
  assert (∀ fh', write_blocks h5_accepts (with_more_fields self more)
                   data names fh'
                 = write_blocks h5_accepts self data names fh') as IH'.
  { intros fh'. apply IH. intros x Hx. apply Hnot, elem_of_cons. by right. }
  simpl. rewrite (contains_app_unused _ _ _ Hk).
  destruct (Dict.contains (_hdf5_fields self) k); [|by apply IH'].
  destruct (getitem data k) as [[a|]|]; simpl; [|by apply IH'|done].
  unfold getitem. rewrite (get_app_unused _ _ _ Hk).
  destruct (Dict.get (_hdf5_fields self) k); simpl; [|done].
  destruct (getitem_0_shape a); simpl; [|done].
  destruct (create_dataset h5_accepts fh _); simpl; [by apply IH'|done].
Qed.

(** X8: entries of the mapping for fields that the batch does not hold
    change nothing: a batch needs not hold every mapped field, and the
    outcome is the one under the mapping without these entries. *)
Theorem unused_fields_ignored self more data :
  (∀ k, k ∈ Dict.keys data → k ∉ Dict.keys more) →
  serialize_batch h5_accepts (with_more_fields self more) data
  = serialize_batch h5_accepts self data.
Proof.
  intros Hnot. unfold serialize_batch, validate, write_container.
  assert (mismatching_entries (with_more_fields self more) data
          = mismatching_entries self data) as Hm.
  { apply set_eq. intros x. rewrite !elem_of_mismatching_entries. simpl.
    unfold Dict.keys at 2. rewrite fmap_app, elem_of_app.
    split; [tauto|]. intros [Hx Hnx]. split; [done|].
    intros [?|?]; [done|]. by apply (Hnot x). }
  assert (check_entries (with_more_fields self more) data
          = check_entries self data) as ->.
  { unfold check_entries. by rewrite Hm. }
  destruct (check_depths data) as [[]|]; simpl; [|done].
  destruct (check_entries self data) as [[]|]; simpl; [|done].
  by apply write_blocks_more_fields.
Qed.

End Mapping.

Lemma present_Permutation data data' k a :
  NoDup (Dict.keys data) → data ≡ₚ data' →
  present data k a → present data' k a.
Proof.
  intros Hnd Hperm. unfold present.
  assert (NoDup (Dict.keys data')) as Hnd'.
  { unfold Dict.keys in *. by rewrite <- Hperm. }
  rewrite !get_elem_of by done. by rewrite Hperm.
Qed.

Lemma check_depths_Permutation data data' :
  NoDup (Dict.keys data) → data ≡ₚ data' →
  check_depths data = check_depths data'.
Proof.
  intros Hnd Hperm.
  assert (NoDup (Dict.keys data')) as Hnd'.
  { unfold Dict.keys in *. by rewrite <- Hperm. }
  assert (∀ k a, present data k a ↔ present data' k a) as Hpres.
  { intros k a. split; apply present_Permutation; done. }
  unfold check_depths, depth_of_data_blocks.
  destruct (depths_from data (Dict.keys data)) as [ds|e] eqn:Hds.
  - pose proof (depths_from_Ok_ranked _ _ _ Hds) as Hrank.
    rewrite depths_from_ranked in Hds by done. injection Hds as <-.
    rewrite (depths_from_ranked data'); [simpl|done|].
    2:{ intros k a _ Hp%Hpres. apply (Hrank k a); [|done].
        by eapply get_Some_keys. }
    assert (list_to_set (present_depths data (Dict.keys data))
            = (list_to_set (present_depths data' (Dict.keys data'))
               : gset nat)) as ->; [|done].
    apply set_eq. intros d.
    rewrite !elem_of_list_to_set, !elem_of_present_depths.
    split; intros (k & a & _ & Hp & Hd); exists k, a; apply Hpres in Hp;
      (split_and!; [by eapply get_Some_keys|done..]).
  - apply depths_from_Raise in Hds as (-> & k & a & _ & Hp & Hs); [|done].
    apply Hpres in Hp.
    rewrite (depths_from_scalar data' _ k a); [done|done| |done..].
    by eapply get_Some_keys.
Qed.

(** X9: the two checks do not depend on the order of the keys of the
    batch: two batches with the same entries are let through, or stopped
    with the same exception, together. *)
Theorem validate_ignores_key_order self data data' :
  NoDup (Dict.keys data) → data ≡ₚ data' →
  validate self data = validate self data'.
Proof.
  intros Hnd Hperm. unfold validate.
  rewrite (check_depths_Permutation data data') by done.
  assert (mismatching_entries self data = mismatching_entries self data')
    as Hm.
  { apply set_eq. intros x. rewrite !elem_of_mismatching_entries.
    unfold Dict.keys at 1 3. by rewrite Hperm. }
  unfold check_entries. by rewrite Hm.
Qed.

(** ** The level of compression *)

(** X10: of two instances constructed from the same compression value
    and mapping, with two levels: for [gzip], [gzip_with_shuffle] and
    [bitshuffle_with_zstd] equal option sets mean equal levels; for every
    other value, [bitshuffle_with_lz4] among them, the two instances are
    the same, the level playing no part. *)
Theorem level_kept_or_ignored c level1 level2 f self1 self2 :
  __init__ (configured c level1 f) = Ok self1 →
  __init__ (configured c level2 f) = Ok self2 →
  (c ∈ levelled_values →
   _compression_options self1 = _compression_options self2 →
   level1 = level2)
  ∧ (c ∉ levelled_values → self1 = self2).
Proof.
  unfold __init__, configured, compression_options, Bitshuffle. simpl.
  intros H1 H2. split.
  - unfold levelled_values. rewrite !elem_of_cons, elem_of_nil.
    intros [->|[->|[->|[]]]]; simpl in *.
    + injection H1 as <-. injection H2 as <-. simpl. intros H.
      apply (f_equal (λ m, m !! "compression_opts")) in H.
      vm_compute in H. congruence.
    + injection H1 as <-. injection H2 as <-. simpl. intros H.
      apply (f_equal (λ m, m !! "compression_opts")) in H.
      vm_compute in H. congruence.
    + repeat case_decide; simplify_eq/=. intros Heq.
      apply (f_equal (λ m, m !! "compression")) in Heq.
      vm_compute in Heq. congruence.
  - unfold levelled_values. rewrite !not_elem_of_cons.
    intros (? & ? & ? & _).
    repeat case_decide; simplify_eq/=; done.
Qed.

(** ** Names of the datasets *)

Lemma NoDup_omap_inj {A B} (g : A → option B) (l : list A) :
  NoDup l →
  (∀ x y b, x ∈ l → y ∈ l → g x = Some b → g y = Some b → x = y) →
  NoDup (omap g l).
Proof.
  induction l as [|x l IH]; intros Hnd Hinj; [constructor|].
  apply NoDup_cons in Hnd as [Hx Hnd].
  assert (NoDup (omap g l)) as IH'.
  { apply IH; [done|]. intros y z b Hy Hz.
    apply Hinj; apply elem_of_cons; by right. }
  simpl. destruct (g x) as [b|] eqn:Hgx; [|exact IH'].
  apply NoDup_cons. split; [|exact IH'].
  intros (y & Hy & Hgy)%list_elem_of_omap.
  assert (x = y) as ->; [|done].
  apply (Hinj x y b); [apply elem_of_cons; by left
                      |apply elem_of_cons; by right|done..].
Qed.

Section Names.

Variable h5_accepts : H5File → Dataset → bool.

(** X11: if the mapping sends the fields of the batch to names that
    differ from one another, the datasets of its container bear names
    that differ from one another. *)
Theorem dataset_names_distinct (self : Serializer) (data : Batch) blob :
  NoDup (Dict.keys data) →
  (∀ k1 k2 name, k1 ∈ Dict.keys data → k2 ∈ Dict.keys data →
     Dict.get (_hdf5_fields self) k1 = Some name →
     Dict.get (_hdf5_fields self) k2 = Some name → k1 = k2) →
  serialize_batch h5_accepts self data = Ok blob →
  NoDup (ds_name <$> blob).
Proof.
  intros Hnd Hinj ->%serialize_batch_requests.
  unfold requests. rewrite names_of_requests.
  apply NoDup_omap_inj; [done|].
  intros k1 k2 name Hk1 Hk2 H1 H2. apply (Hinj k1 k2 name); [done..| |].
  - by destruct (Dict.get data k1) as [[?|]|].
  - by destruct (Dict.get data k2) as [[?|]|].
Qed.

End Names.

(** ** Further worked examples *)

(** Two arrays of depth 2 under mapped keys. *)
Lemma validate_iff_witness : validate gzip_ab batch_ab = Ok ().
Proof.
  apply (proj2 (validate_iff gzip_ab batch_ab)). split.
  - exists 2, "a", (zeros [2] float32). split; [reflexivity|].
    unfold batch_ab. lookup_cases.
  - intros x. simpl. rewrite !elem_of_cons. tauto.
Defined.

(** The zero-dimensional array wins over the unmapped key [foo]. *)
Lemma scalar_array_raises_witness :
  serialize_batch h5_fresh_name gzip_ab batch_scalar = Raise IndexError.
Proof.
  apply (scalar_array_raises h5_fresh_name gzip_ab batch_scalar
           "foo" (zeros [] float32)); reflexivity.
Defined.

(** Depths 3 and 4: one of the four ways. *)
Lemma exceptions_of_a_batch_witness :
  serialize_batch h5_fresh_name gzip_ab batch_3_4 = Raise InconsistentDepth
  ∧ InconsistentDepth ≠ KeyError "a".
Proof.
  assert (serialize_batch h5_fresh_name gzip_ab batch_3_4
          = Raise InconsistentDepth) as H by (vm_compute; reflexivity).
  split; [exact H|].
  exact (proj2 (exceptions_of_a_batch h5_fresh_name gzip_ab batch_3_4 _ H)
           "a").
Defined.

(** Two arrays sent to the name [alpha]: the second is refused. *)
Lemma refused_dataset_fails_batch_witness :
  serialize_batch h5_fresh_name gzip_same_name batch_ab = Raise H5Error.
Proof.
  apply (refused_dataset_fails_batch h5_fresh_name gzip_same_name batch_ab).
  - vm_compute. reflexivity.
  - unfold batch_ab. lookup_cases; eexists; reflexivity.
  - vm_compute. reflexivity.
Defined.

(** The second of three batches fails: one blob, then the exit. *)
Lemma call_stops_at_first_failure_witness :
  ∃ before data after,
    [batch_ba; batch_3_4; batch_ba] = before ++ data :: after
    ∧ length before = 1
    ∧ serialize_batch h5_fresh_name gzip_ab data = Raise InconsistentDepth.
Proof.
  destruct (call_stops_at_first_failure h5_fresh_name gzip_ab
              [batch_ba; batch_3_4; batch_ba]
              [requests gzip_ab batch_ba] (Some InconsistentDepth))
    as (before & data & after & Heq & Hall & He).
  - vm_compute. reflexivity.
  - exists before, data, after. split_and!; [exact Heq| |exact He].
    apply Forall2_length in Hall. exact Hall.
Defined.

(** One array, one dataset, though the batch has two fields. *)
Lemma datasets_follow_arrays_witness :
  ds_shape <$> requests gzip_ab batch_none_b = [[2; 3]]
  ∧ length (requests gzip_ab batch_none_b) = 1.
Proof.
  assert (serialize_batch h5_fresh_name gzip_ab batch_none_b
          = Ok (requests gzip_ab batch_none_b)) as H
    by (vm_compute; reflexivity).
  destruct (datasets_follow_arrays h5_fresh_name _ _ _ H)
    as (Hs & _ & _ & Hl).
  split; [rewrite Hs|rewrite Hl]; reflexivity.
Defined.

(** A mapping with an entry for [c], which the batch does not hold. *)
Lemma unused_fields_ignored_witness :
  serialize_batch h5_fresh_name
    (with_more_fields gzip_ab [("c", "gamma")]) batch_ba
  = serialize_batch h5_fresh_name gzip_ab batch_ba.
Proof.
  apply (unused_fields_ignored h5_fresh_name gzip_ab [("c", "gamma")]).
  intros k. simpl. rewrite !elem_of_cons, !elem_of_nil.
  intros [->|[->|[]]] [?|[]]; discriminate.
Defined.

(** The same two entries, in either order. *)
Lemma validate_ignores_key_order_witness :
  validate gzip_ab batch_ab = validate gzip_ab batch_ba.
Proof.
  apply validate_ignores_key_order.
  - simpl. apply NoDup_cons. split; [is_no_key|].
    apply NoDup_cons. split; [apply not_elem_of_nil|apply NoDup_nil_2].
  - apply Permutation_swap.
Defined.

(** [bitshuffle_with_lz4] at levels 1 and 9. *)
Lemma level_kept_or_ignored_witness :
  ∃ self1 self2,
    __init__ (configured "bitshuffle_with_lz4" 1 fields_ab) = Ok self1
    ∧ __init__ (configured "bitshuffle_with_lz4" 9 fields_ab) = Ok self2
    ∧ self1 = self2.
Proof.
  destruct (__init__ (configured "bitshuffle_with_lz4" 1 fields_ab))
    as [self1|] eqn:H1; [|vm_compute in H1; discriminate].
  destruct (__init__ (configured "bitshuffle_with_lz4" 9 fields_ab))
    as [self2|] eqn:H9; [|vm_compute in H9; discriminate].
  exists self1, self2. split_and!; [reflexivity..|].
  apply (proj2 (level_kept_or_ignored _ _ _ _ _ _ H1 H9)).
  unfold levelled_values. is_no_key.
Defined.

(** The names [beta] and [alpha]. *)
Lemma dataset_names_distinct_witness :
  NoDup (ds_name <$> requests gzip_ab batch_ba).
Proof.
  apply (dataset_names_distinct h5_fresh_name gzip_ab batch_ba).
  - simpl. apply NoDup_cons. split; [is_no_key|].
    apply NoDup_cons. split; [apply not_elem_of_nil|apply NoDup_nil_2].
  - intros k1 k2 name. simpl. rewrite !elem_of_cons, !elem_of_nil.
    intros [->|[->|[]]] [->|[->|[]]]; simpl; congruence.
  - vm_compute. reflexivity.
Defined.
